(** * Financial-statement extraction and bank-statement categorisation

    A shallow embedding of [src/app.py] (metric extraction from statement
    text) and [src/bank_statement_analyzer.py] (column reconciliation,
    categorisation and aggregation of bank transactions), followed by the
    properties of the specification that are stated about them.

    Python text is a sequence of Unicode code points, so a [str] is a list
    of code points.  The built-ins of the Python runtime that the program
    calls ([str.lower], [str.strip], [str.replace], [in], [float], the [re]
    module) are modelled in the modules [PyStr] and [Re]; the two source
    files are embedded in [App] and [Bank]. *)

From Stdlib Require Import String Ascii.
From Stdlib Require Import Bool NArith ZArith QArith Qabs Lia.
From Stdlib Require Import List Permutation Sorted.
Import ListNotations.

Local Open Scope N_scope.

(** ** Code points and the character tables *)

Definition char := N.
Definition str := list char.

Module PyStr.

(** [txt] reads an ASCII literal as Python text, one code point per byte. *)
Fixpoint txt (s : string) : str :=
  match s with
  | EmptyString => []
  | String a s' => N_of_ascii a :: txt s'
  end.

(** The character tables are those of CPython 3.11 (Unicode 14.0.0), over
    all code points, each a list of runs of code points in increasing
    order. *)

Definition between (lo hi c : char) : bool := (lo <=? c) && (c <=? hi).

(** Membership in a list of runs in increasing order. *)
Fixpoint in_ranges (rs : list (char * char)) (c : char) : bool :=
  match rs with
  | [] => false
  | (lo, hi) :: rs' =>
      if c <? lo then false
      else if c <=? hi then true
      else in_ranges rs' c
  end.

(** The zero of each run of ten decimal digits (general category Nd). *)
Definition DIGIT_ZEROS : list char :=
  [
    48; 1632; 1776; 1984; 2406; 2534; 2662; 2790; 2918; 3046; 3174; 3302;
    3430; 3558; 3664; 3792; 3872; 4160; 4240; 6112; 6160; 6470; 6608; 6784;
    6800; 6992; 7088; 7232; 7248; 42528; 43216; 43264; 43472; 43504; 43600;
    44016; 65296; 66720; 68912; 69734; 69872; 69942; 70096; 70384; 70736;
    70864; 71248; 71360; 71472; 71904; 72016; 72784; 73040; 73120; 92768;
    92864; 93008; 120782; 120792; 120802; 120812; 120822; 123200; 123632;
    125264; 130032 ].

(** The white space of [str.isspace], [str.strip()] and [\s]. *)
Definition WHITESPACE : list (char * char) :=
  [
    (9, 13); (28, 32); (133, 133); (160, 160); (5760, 5760); (8192, 8202);
    (8232, 8233); (8239, 8239); (8287, 8287); (12288, 12288) ].

(** The characters of [\w]: alphanumeric characters and the underscore. *)
Definition WORD_CHARACTERS : list (char * char) :=
  [
    (48, 57); (65, 90); (95, 95); (97, 122); (170, 170); (178, 179);
    (181, 181); (185, 186); (188, 190); (192, 214); (216, 246); (248, 705);
    (710, 721); (736, 740); (748, 748); (750, 750); (880, 884); (886, 887);
    (890, 893); (895, 895); (902, 902); (904, 906); (908, 908); (910, 929);
    (931, 1013); (1015, 1153); (1162, 1327); (1329, 1366); (1369, 1369);
    (1376, 1416); (1488, 1514); (1519, 1522); (1568, 1610); (1632, 1641);
    (1646, 1647); (1649, 1747); (1749, 1749); (1765, 1766); (1774, 1788);
    (1791, 1791); (1808, 1808); (1810, 1839); (1869, 1957); (1969, 1969);
    (1984, 2026); (2036, 2037); (2042, 2042); (2048, 2069); (2074, 2074);
    (2084, 2084); (2088, 2088); (2112, 2136); (2144, 2154); (2160, 2183);
    (2185, 2190); (2208, 2249); (2308, 2361); (2365, 2365); (2384, 2384);
    (2392, 2401); (2406, 2415); (2417, 2432); (2437, 2444); (2447, 2448);
    (2451, 2472); (2474, 2480); (2482, 2482); (2486, 2489); (2493, 2493);
    (2510, 2510); (2524, 2525); (2527, 2529); (2534, 2545); (2548, 2553);
    (2556, 2556); (2565, 2570); (2575, 2576); (2579, 2600); (2602, 2608);
    (2610, 2611); (2613, 2614); (2616, 2617); (2649, 2652); (2654, 2654);
    (2662, 2671); (2674, 2676); (2693, 2701); (2703, 2705); (2707, 2728);
    (2730, 2736); (2738, 2739); (2741, 2745); (2749, 2749); (2768, 2768);
    (2784, 2785); (2790, 2799); (2809, 2809); (2821, 2828); (2831, 2832);
    (2835, 2856); (2858, 2864); (2866, 2867); (2869, 2873); (2877, 2877);
    (2908, 2909); (2911, 2913); (2918, 2927); (2929, 2935); (2947, 2947);
    (2949, 2954); (2958, 2960); (2962, 2965); (2969, 2970); (2972, 2972);
    (2974, 2975); (2979, 2980); (2984, 2986); (2990, 3001); (3024, 3024);
    (3046, 3058); (3077, 3084); (3086, 3088); (3090, 3112); (3114, 3129);
    (3133, 3133); (3160, 3162); (3165, 3165); (3168, 3169); (3174, 3183);
    (3192, 3198); (3200, 3200); (3205, 3212); (3214, 3216); (3218, 3240);
    (3242, 3251); (3253, 3257); (3261, 3261); (3293, 3294); (3296, 3297);
    (3302, 3311); (3313, 3314); (3332, 3340); (3342, 3344); (3346, 3386);
    (3389, 3389); (3406, 3406); (3412, 3414); (3416, 3425); (3430, 3448);
    (3450, 3455); (3461, 3478); (3482, 3505); (3507, 3515); (3517, 3517);
    (3520, 3526); (3558, 3567); (3585, 3632); (3634, 3635); (3648, 3654);
    (3664, 3673); (3713, 3714); (3716, 3716); (3718, 3722); (3724, 3747);
    (3749, 3749); (3751, 3760); (3762, 3763); (3773, 3773); (3776, 3780);
    (3782, 3782); (3792, 3801); (3804, 3807); (3840, 3840); (3872, 3891);
    (3904, 3911); (3913, 3948); (3976, 3980); (4096, 4138); (4159, 4169);
    (4176, 4181); (4186, 4189); (4193, 4193); (4197, 4198); (4206, 4208);
    (4213, 4225); (4238, 4238); (4240, 4249); (4256, 4293); (4295, 4295);
    (4301, 4301); (4304, 4346); (4348, 4680); (4682, 4685); (4688, 4694);
    (4696, 4696); (4698, 4701); (4704, 4744); (4746, 4749); (4752, 4784);
    (4786, 4789); (4792, 4798); (4800, 4800); (4802, 4805); (4808, 4822);
    (4824, 4880); (4882, 4885); (4888, 4954); (4969, 4988); (4992, 5007);
    (5024, 5109); (5112, 5117); (5121, 5740); (5743, 5759); (5761, 5786);
    (5792, 5866); (5870, 5880); (5888, 5905); (5919, 5937); (5952, 5969);
    (5984, 5996); (5998, 6000); (6016, 6067); (6103, 6103); (6108, 6108);
    (6112, 6121); (6128, 6137); (6160, 6169); (6176, 6264); (6272, 6276);
    (6279, 6312); (6314, 6314); (6320, 6389); (6400, 6430); (6470, 6509);
    (6512, 6516); (6528, 6571); (6576, 6601); (6608, 6618); (6656, 6678);
    (6688, 6740); (6784, 6793); (6800, 6809); (6823, 6823); (6917, 6963);
    (6981, 6988); (6992, 7001); (7043, 7072); (7086, 7141); (7168, 7203);
    (7232, 7241); (7245, 7293); (7296, 7304); (7312, 7354); (7357, 7359);
    (7401, 7404); (7406, 7411); (7413, 7414); (7418, 7418); (7424, 7615);
    (7680, 7957); (7960, 7965); (7968, 8005); (8008, 8013); (8016, 8023);
    (8025, 8025); (8027, 8027); (8029, 8029); (8031, 8061); (8064, 8116);
    (8118, 8124); (8126, 8126); (8130, 8132); (8134, 8140); (8144, 8147);
    (8150, 8155); (8160, 8172); (8178, 8180); (8182, 8188); (8304, 8305);
    (8308, 8313); (8319, 8329); (8336, 8348); (8450, 8450); (8455, 8455);
    (8458, 8467); (8469, 8469); (8473, 8477); (8484, 8484); (8486, 8486);
    (8488, 8488); (8490, 8493); (8495, 8505); (8508, 8511); (8517, 8521);
    (8526, 8526); (8528, 8585); (9312, 9371); (9450, 9471); (10102, 10131);
    (11264, 11492); (11499, 11502); (11506, 11507); (11517, 11517);
    (11520, 11557); (11559, 11559); (11565, 11565); (11568, 11623);
    (11631, 11631); (11648, 11670); (11680, 11686); (11688, 11694);
    (11696, 11702); (11704, 11710); (11712, 11718); (11720, 11726);
    (11728, 11734); (11736, 11742); (11823, 11823); (12293, 12295);
    (12321, 12329); (12337, 12341); (12344, 12348); (12353, 12438);
    (12445, 12447); (12449, 12538); (12540, 12543); (12549, 12591);
    (12593, 12686); (12690, 12693); (12704, 12735); (12784, 12799);
    (12832, 12841); (12872, 12879); (12881, 12895); (12928, 12937);
    (12977, 12991); (13312, 19903); (19968, 42124); (42192, 42237);
    (42240, 42508); (42512, 42539); (42560, 42606); (42623, 42653);
    (42656, 42735); (42775, 42783); (42786, 42888); (42891, 42954);
    (42960, 42961); (42963, 42963); (42965, 42969); (42994, 43009);
    (43011, 43013); (43015, 43018); (43020, 43042); (43056, 43061);
    (43072, 43123); (43138, 43187); (43216, 43225); (43250, 43255);
    (43259, 43259); (43261, 43262); (43264, 43301); (43312, 43334);
    (43360, 43388); (43396, 43442); (43471, 43481); (43488, 43492);
    (43494, 43518); (43520, 43560); (43584, 43586); (43588, 43595);
    (43600, 43609); (43616, 43638); (43642, 43642); (43646, 43695);
    (43697, 43697); (43701, 43702); (43705, 43709); (43712, 43712);
    (43714, 43714); (43739, 43741); (43744, 43754); (43762, 43764);
    (43777, 43782); (43785, 43790); (43793, 43798); (43808, 43814);
    (43816, 43822); (43824, 43866); (43868, 43881); (43888, 44002);
    (44016, 44025); (44032, 55203); (55216, 55238); (55243, 55291);
    (63744, 64109); (64112, 64217); (64256, 64262); (64275, 64279);
    (64285, 64285); (64287, 64296); (64298, 64310); (64312, 64316);
    (64318, 64318); (64320, 64321); (64323, 64324); (64326, 64433);
    (64467, 64829); (64848, 64911); (64914, 64967); (65008, 65019);
    (65136, 65140); (65142, 65276); (65296, 65305); (65313, 65338);
    (65345, 65370); (65382, 65470); (65474, 65479); (65482, 65487);
    (65490, 65495); (65498, 65500); (65536, 65547); (65549, 65574);
    (65576, 65594); (65596, 65597); (65599, 65613); (65616, 65629);
    (65664, 65786); (65799, 65843); (65856, 65912); (65930, 65931);
    (66176, 66204); (66208, 66256); (66273, 66299); (66304, 66339);
    (66349, 66378); (66384, 66421); (66432, 66461); (66464, 66499);
    (66504, 66511); (66513, 66517); (66560, 66717); (66720, 66729);
    (66736, 66771); (66776, 66811); (66816, 66855); (66864, 66915);
    (66928, 66938); (66940, 66954); (66956, 66962); (66964, 66965);
    (66967, 66977); (66979, 66993); (66995, 67001); (67003, 67004);
    (67072, 67382); (67392, 67413); (67424, 67431); (67456, 67461);
    (67463, 67504); (67506, 67514); (67584, 67589); (67592, 67592);
    (67594, 67637); (67639, 67640); (67644, 67644); (67647, 67669);
    (67672, 67702); (67705, 67742); (67751, 67759); (67808, 67826);
    (67828, 67829); (67835, 67867); (67872, 67897); (67968, 68023);
    (68028, 68047); (68050, 68096); (68112, 68115); (68117, 68119);
    (68121, 68149); (68160, 68168); (68192, 68222); (68224, 68255);
    (68288, 68295); (68297, 68324); (68331, 68335); (68352, 68405);
    (68416, 68437); (68440, 68466); (68472, 68497); (68521, 68527);
    (68608, 68680); (68736, 68786); (68800, 68850); (68858, 68899);
    (68912, 68921); (69216, 69246); (69248, 69289); (69296, 69297);
    (69376, 69415); (69424, 69445); (69457, 69460); (69488, 69505);
    (69552, 69579); (69600, 69622); (69635, 69687); (69714, 69743);
    (69745, 69746); (69749, 69749); (69763, 69807); (69840, 69864);
    (69872, 69881); (69891, 69926); (69942, 69951); (69956, 69956);
    (69959, 69959); (69968, 70002); (70006, 70006); (70019, 70066);
    (70081, 70084); (70096, 70106); (70108, 70108); (70113, 70132);
    (70144, 70161); (70163, 70187); (70272, 70278); (70280, 70280);
    (70282, 70285); (70287, 70301); (70303, 70312); (70320, 70366);
    (70384, 70393); (70405, 70412); (70415, 70416); (70419, 70440);
    (70442, 70448); (70450, 70451); (70453, 70457); (70461, 70461);
    (70480, 70480); (70493, 70497); (70656, 70708); (70727, 70730);
    (70736, 70745); (70751, 70753); (70784, 70831); (70852, 70853);
    (70855, 70855); (70864, 70873); (71040, 71086); (71128, 71131);
    (71168, 71215); (71236, 71236); (71248, 71257); (71296, 71338);
    (71352, 71352); (71360, 71369); (71424, 71450); (71472, 71483);
    (71488, 71494); (71680, 71723); (71840, 71922); (71935, 71942);
    (71945, 71945); (71948, 71955); (71957, 71958); (71960, 71983);
    (71999, 71999); (72001, 72001); (72016, 72025); (72096, 72103);
    (72106, 72144); (72161, 72161); (72163, 72163); (72192, 72192);
    (72203, 72242); (72250, 72250); (72272, 72272); (72284, 72329);
    (72349, 72349); (72368, 72440); (72704, 72712); (72714, 72750);
    (72768, 72768); (72784, 72812); (72818, 72847); (72960, 72966);
    (72968, 72969); (72971, 73008); (73030, 73030); (73040, 73049);
    (73056, 73061); (73063, 73064); (73066, 73097); (73112, 73112);
    (73120, 73129); (73440, 73458); (73648, 73648); (73664, 73684);
    (73728, 74649); (74752, 74862); (74880, 75075); (77712, 77808);
    (77824, 78894); (82944, 83526); (92160, 92728); (92736, 92766);
    (92768, 92777); (92784, 92862); (92864, 92873); (92880, 92909);
    (92928, 92975); (92992, 92995); (93008, 93017); (93019, 93025);
    (93027, 93047); (93053, 93071); (93760, 93846); (93952, 94026);
    (94032, 94032); (94099, 94111); (94176, 94177); (94179, 94179);
    (94208, 100343); (100352, 101589); (101632, 101640); (110576, 110579);
    (110581, 110587); (110589, 110590); (110592, 110882); (110928, 110930);
    (110948, 110951); (110960, 111355); (113664, 113770); (113776, 113788);
    (113792, 113800); (113808, 113817); (119520, 119539); (119648, 119672);
    (119808, 119892); (119894, 119964); (119966, 119967); (119970, 119970);
    (119973, 119974); (119977, 119980); (119982, 119993); (119995, 119995);
    (119997, 120003); (120005, 120069); (120071, 120074); (120077, 120084);
    (120086, 120092); (120094, 120121); (120123, 120126); (120128, 120132);
    (120134, 120134); (120138, 120144); (120146, 120485); (120488, 120512);
    (120514, 120538); (120540, 120570); (120572, 120596); (120598, 120628);
    (120630, 120654); (120656, 120686); (120688, 120712); (120714, 120744);
    (120746, 120770); (120772, 120779); (120782, 120831); (122624, 122654);
    (123136, 123180); (123191, 123197); (123200, 123209); (123214, 123214);
    (123536, 123565); (123584, 123627); (123632, 123641); (124896, 124902);
    (124904, 124907); (124909, 124910); (124912, 124926); (124928, 125124);
    (125127, 125135); (125184, 125251); (125259, 125259); (125264, 125273);
    (126065, 126123); (126125, 126127); (126129, 126132); (126209, 126253);
    (126255, 126269); (126464, 126467); (126469, 126495); (126497, 126498);
    (126500, 126500); (126503, 126503); (126505, 126514); (126516, 126519);
    (126521, 126521); (126523, 126523); (126530, 126530); (126535, 126535);
    (126537, 126537); (126539, 126539); (126541, 126543); (126545, 126546);
    (126548, 126548); (126551, 126551); (126553, 126553); (126555, 126555);
    (126557, 126557); (126559, 126559); (126561, 126562); (126564, 126564);
    (126567, 126570); (126572, 126578); (126580, 126583); (126585, 126588);
    (126590, 126590); (126592, 126601); (126603, 126619); (126625, 126627);
    (126629, 126633); (126635, 126651); (127232, 127244); (130032, 130041);
    (131072, 173791); (173824, 177976); (177984, 178205); (178208, 183969);
    (183984, 191456); (194560, 195101); (196608, 201546) ].

(** The simple lower-case mapping, in runs: from [lo] to [hi], every
    [step]-th character maps to the character as far from [target] as it
    is from [lo]. *)
Definition LOWER_RUNS : list (char * char * N * char) :=
  [
    (65, 90, 1, 97); (192, 214, 1, 224); (216, 222, 1, 248);
    (256, 302, 2, 257); (304, 304, 1, 105); (306, 310, 2, 307);
    (313, 327, 2, 314); (330, 374, 2, 331); (376, 376, 1, 255);
    (377, 381, 2, 378); (385, 385, 1, 595); (386, 388, 2, 387);
    (390, 390, 1, 596); (391, 391, 1, 392); (393, 394, 1, 598);
    (395, 395, 1, 396); (398, 398, 1, 477); (399, 399, 1, 601);
    (400, 400, 1, 603); (401, 401, 1, 402); (403, 403, 1, 608);
    (404, 404, 1, 611); (406, 406, 1, 617); (407, 407, 1, 616);
    (408, 408, 1, 409); (412, 412, 1, 623); (413, 413, 1, 626);
    (415, 415, 1, 629); (416, 420, 2, 417); (422, 422, 1, 640);
    (423, 423, 1, 424); (425, 425, 1, 643); (428, 428, 1, 429);
    (430, 430, 1, 648); (431, 431, 1, 432); (433, 434, 1, 650);
    (435, 437, 2, 436); (439, 439, 1, 658); (440, 440, 1, 441);
    (444, 444, 1, 445); (452, 452, 1, 454); (453, 453, 1, 454);
    (455, 455, 1, 457); (456, 456, 1, 457); (458, 458, 1, 460);
    (459, 475, 2, 460); (478, 494, 2, 479); (497, 497, 1, 499);
    (498, 500, 2, 499); (502, 502, 1, 405); (503, 503, 1, 447);
    (504, 542, 2, 505); (544, 544, 1, 414); (546, 562, 2, 547);
    (570, 570, 1, 11365); (571, 571, 1, 572); (573, 573, 1, 410);
    (574, 574, 1, 11366); (577, 577, 1, 578); (579, 579, 1, 384);
    (580, 580, 1, 649); (581, 581, 1, 652); (582, 590, 2, 583);
    (880, 882, 2, 881); (886, 886, 1, 887); (895, 895, 1, 1011);
    (902, 902, 1, 940); (904, 906, 1, 941); (908, 908, 1, 972);
    (910, 911, 1, 973); (913, 929, 1, 945); (931, 939, 1, 963);
    (975, 975, 1, 983); (984, 1006, 2, 985); (1012, 1012, 1, 952);
    (1015, 1015, 1, 1016); (1017, 1017, 1, 1010); (1018, 1018, 1, 1019);
    (1021, 1023, 1, 891); (1024, 1039, 1, 1104); (1040, 1071, 1, 1072);
    (1120, 1152, 2, 1121); (1162, 1214, 2, 1163); (1216, 1216, 1, 1231);
    (1217, 1229, 2, 1218); (1232, 1326, 2, 1233); (1329, 1366, 1, 1377);
    (4256, 4293, 1, 11520); (4295, 4295, 1, 11559); (4301, 4301, 1, 11565);
    (5024, 5103, 1, 43888); (5104, 5109, 1, 5112); (7312, 7354, 1, 4304);
    (7357, 7359, 1, 4349); (7680, 7828, 2, 7681); (7838, 7838, 1, 223);
    (7840, 7934, 2, 7841); (7944, 7951, 1, 7936); (7960, 7965, 1, 7952);
    (7976, 7983, 1, 7968); (7992, 7999, 1, 7984); (8008, 8013, 1, 8000);
    (8025, 8031, 2, 8017); (8040, 8047, 1, 8032); (8072, 8079, 1, 8064);
    (8088, 8095, 1, 8080); (8104, 8111, 1, 8096); (8120, 8121, 1, 8112);
    (8122, 8123, 1, 8048); (8124, 8124, 1, 8115); (8136, 8139, 1, 8050);
    (8140, 8140, 1, 8131); (8152, 8153, 1, 8144); (8154, 8155, 1, 8054);
    (8168, 8169, 1, 8160); (8170, 8171, 1, 8058); (8172, 8172, 1, 8165);
    (8184, 8185, 1, 8056); (8186, 8187, 1, 8060); (8188, 8188, 1, 8179);
    (8486, 8486, 1, 969); (8490, 8490, 1, 107); (8491, 8491, 1, 229);
    (8498, 8498, 1, 8526); (8544, 8559, 1, 8560); (8579, 8579, 1, 8580);
    (9398, 9423, 1, 9424); (11264, 11311, 1, 11312); (11360, 11360, 1, 11361);
    (11362, 11362, 1, 619); (11363, 11363, 1, 7549); (11364, 11364, 1, 637);
    (11367, 11371, 2, 11368); (11373, 11373, 1, 593); (11374, 11374, 1, 625);
    (11375, 11375, 1, 592); (11376, 11376, 1, 594); (11378, 11378, 1, 11379);
    (11381, 11381, 1, 11382); (11390, 11391, 1, 575);
    (11392, 11490, 2, 11393); (11499, 11501, 2, 11500);
    (11506, 11506, 1, 11507); (42560, 42604, 2, 42561);
    (42624, 42650, 2, 42625); (42786, 42798, 2, 42787);
    (42802, 42862, 2, 42803); (42873, 42875, 2, 42874);
    (42877, 42877, 1, 7545); (42878, 42886, 2, 42879);
    (42891, 42891, 1, 42892); (42893, 42893, 1, 613);
    (42896, 42898, 2, 42897); (42902, 42920, 2, 42903);
    (42922, 42922, 1, 614); (42923, 42923, 1, 604); (42924, 42924, 1, 609);
    (42925, 42925, 1, 620); (42926, 42926, 1, 618); (42928, 42928, 1, 670);
    (42929, 42929, 1, 647); (42930, 42930, 1, 669); (42931, 42931, 1, 43859);
    (42932, 42946, 2, 42933); (42948, 42948, 1, 42900);
    (42949, 42949, 1, 642); (42950, 42950, 1, 7566); (42951, 42953, 2, 42952);
    (42960, 42960, 1, 42961); (42966, 42968, 2, 42967);
    (42997, 42997, 1, 42998); (65313, 65338, 1, 65345);
    (66560, 66599, 1, 66600); (66736, 66771, 1, 66776);
    (66928, 66938, 1, 66967); (66940, 66954, 1, 66979);
    (66956, 66962, 1, 66995); (66964, 66965, 1, 67003);
    (68736, 68786, 1, 68800); (71840, 71871, 1, 71872);
    (93760, 93791, 1, 93792); (125184, 125217, 1, 125218) ].

(** The characters that have another case: for a literal among them [re.IGNORECASE] changes what it matches. *)
Definition CASED_LITERALS : list (char * char) :=
  [
    (65, 90); (97, 122); (181, 181); (192, 214); (216, 246); (248, 311);
    (313, 396); (398, 410); (412, 425); (428, 441); (444, 445); (447, 447);
    (452, 544); (546, 563); (570, 596); (598, 599); (601, 601); (603, 604);
    (608, 609); (611, 611); (613, 614); (616, 620); (623, 623); (625, 626);
    (629, 629); (637, 637); (640, 640); (642, 643); (647, 652); (658, 658);
    (669, 670); (837, 837); (880, 883); (886, 887); (891, 893); (895, 895);
    (902, 902); (904, 906); (908, 908); (910, 929); (931, 977); (981, 1013);
    (1015, 1019); (1021, 1153); (1162, 1327); (1329, 1366); (1377, 1415);
    (4256, 4293); (4295, 4295); (4301, 4301); (4304, 4346); (4349, 4351);
    (5024, 5109); (5112, 5117); (7296, 7304); (7312, 7354); (7357, 7359);
    (7545, 7545); (7549, 7549); (7566, 7566); (7680, 7835); (7838, 7838);
    (7840, 7957); (7960, 7965); (7968, 8005); (8008, 8013); (8016, 8023);
    (8025, 8025); (8027, 8027); (8029, 8029); (8031, 8061); (8064, 8116);
    (8118, 8124); (8126, 8126); (8130, 8132); (8134, 8140); (8144, 8147);
    (8150, 8155); (8160, 8172); (8178, 8180); (8182, 8188); (8486, 8486);
    (8490, 8491); (8498, 8498); (8526, 8526); (8544, 8575); (8579, 8580);
    (9398, 9449); (11264, 11376); (11378, 11379); (11381, 11382);
    (11390, 11491); (11499, 11502); (11506, 11507); (11520, 11557);
    (11559, 11559); (11565, 11565); (42560, 42605); (42624, 42651);
    (42786, 42799); (42802, 42863); (42873, 42887); (42891, 42893);
    (42896, 42900); (42902, 42926); (42928, 42954); (42960, 42961);
    (42966, 42969); (42997, 42998); (43859, 43859); (43888, 43967);
    (64256, 64262); (64275, 64279); (65313, 65338); (65345, 65370);
    (66560, 66639); (66736, 66771); (66776, 66811); (66928, 66938);
    (66940, 66954); (66956, 66962); (66964, 66965); (66967, 66977);
    (66979, 66993); (66995, 67001); (67003, 67004); (68736, 68786);
    (68800, 68850); (71840, 71903); (93760, 93823); (125184, 125251) ].

(** The case-ignorable characters, which the rule of the final sigma skips. *)
Definition CASE_IGNORABLE : list (char * char) :=
  [
    (39, 39); (46, 46); (58, 58); (94, 94); (96, 96); (168, 168); (173, 173);
    (175, 175); (180, 180); (183, 184); (688, 879); (884, 885); (890, 890);
    (900, 901); (903, 903); (1155, 1161); (1369, 1369); (1375, 1375);
    (1425, 1469); (1471, 1471); (1473, 1474); (1476, 1477); (1479, 1479);
    (1524, 1524); (1536, 1541); (1552, 1562); (1564, 1564); (1600, 1600);
    (1611, 1631); (1648, 1648); (1750, 1757); (1759, 1768); (1770, 1773);
    (1807, 1807); (1809, 1809); (1840, 1866); (1958, 1968); (2027, 2037);
    (2042, 2042); (2045, 2045); (2070, 2093); (2137, 2139); (2184, 2184);
    (2192, 2193); (2200, 2207); (2249, 2306); (2362, 2362); (2364, 2364);
    (2369, 2376); (2381, 2381); (2385, 2391); (2402, 2403); (2417, 2417);
    (2433, 2433); (2492, 2492); (2497, 2500); (2509, 2509); (2530, 2531);
    (2558, 2558); (2561, 2562); (2620, 2620); (2625, 2626); (2631, 2632);
    (2635, 2637); (2641, 2641); (2672, 2673); (2677, 2677); (2689, 2690);
    (2748, 2748); (2753, 2757); (2759, 2760); (2765, 2765); (2786, 2787);
    (2810, 2815); (2817, 2817); (2876, 2876); (2879, 2879); (2881, 2884);
    (2893, 2893); (2901, 2902); (2914, 2915); (2946, 2946); (3008, 3008);
    (3021, 3021); (3072, 3072); (3076, 3076); (3132, 3132); (3134, 3136);
    (3142, 3144); (3146, 3149); (3157, 3158); (3170, 3171); (3201, 3201);
    (3260, 3260); (3263, 3263); (3270, 3270); (3276, 3277); (3298, 3299);
    (3328, 3329); (3387, 3388); (3393, 3396); (3405, 3405); (3426, 3427);
    (3457, 3457); (3530, 3530); (3538, 3540); (3542, 3542); (3633, 3633);
    (3636, 3642); (3654, 3662); (3761, 3761); (3764, 3772); (3782, 3782);
    (3784, 3789); (3864, 3865); (3893, 3893); (3895, 3895); (3897, 3897);
    (3953, 3966); (3968, 3972); (3974, 3975); (3981, 3991); (3993, 4028);
    (4038, 4038); (4141, 4144); (4146, 4151); (4153, 4154); (4157, 4158);
    (4184, 4185); (4190, 4192); (4209, 4212); (4226, 4226); (4229, 4230);
    (4237, 4237); (4253, 4253); (4348, 4348); (4957, 4959); (5906, 5908);
    (5938, 5939); (5970, 5971); (6002, 6003); (6068, 6069); (6071, 6077);
    (6086, 6086); (6089, 6099); (6103, 6103); (6109, 6109); (6155, 6159);
    (6211, 6211); (6277, 6278); (6313, 6313); (6432, 6434); (6439, 6440);
    (6450, 6450); (6457, 6459); (6679, 6680); (6683, 6683); (6742, 6742);
    (6744, 6750); (6752, 6752); (6754, 6754); (6757, 6764); (6771, 6780);
    (6783, 6783); (6823, 6823); (6832, 6862); (6912, 6915); (6964, 6964);
    (6966, 6970); (6972, 6972); (6978, 6978); (7019, 7027); (7040, 7041);
    (7074, 7077); (7080, 7081); (7083, 7085); (7142, 7142); (7144, 7145);
    (7149, 7149); (7151, 7153); (7212, 7219); (7222, 7223); (7288, 7293);
    (7376, 7378); (7380, 7392); (7394, 7400); (7405, 7405); (7412, 7412);
    (7416, 7417); (7468, 7530); (7544, 7544); (7579, 7679); (8125, 8125);
    (8127, 8129); (8141, 8143); (8157, 8159); (8173, 8175); (8189, 8190);
    (8203, 8207); (8216, 8217); (8228, 8228); (8231, 8231); (8234, 8238);
    (8288, 8292); (8294, 8303); (8305, 8305); (8319, 8319); (8336, 8348);
    (8400, 8432); (11388, 11389); (11503, 11505); (11631, 11631);
    (11647, 11647); (11744, 11775); (11823, 11823); (12293, 12293);
    (12330, 12333); (12337, 12341); (12347, 12347); (12441, 12446);
    (12540, 12542); (40981, 40981); (42232, 42237); (42508, 42508);
    (42607, 42610); (42612, 42621); (42623, 42623); (42652, 42655);
    (42736, 42737); (42752, 42785); (42864, 42864); (42888, 42890);
    (42994, 42996); (43000, 43001); (43010, 43010); (43014, 43014);
    (43019, 43019); (43045, 43046); (43052, 43052); (43204, 43205);
    (43232, 43249); (43263, 43263); (43302, 43309); (43335, 43345);
    (43392, 43394); (43443, 43443); (43446, 43449); (43452, 43453);
    (43471, 43471); (43493, 43494); (43561, 43566); (43569, 43570);
    (43573, 43574); (43587, 43587); (43596, 43596); (43632, 43632);
    (43644, 43644); (43696, 43696); (43698, 43700); (43703, 43704);
    (43710, 43711); (43713, 43713); (43741, 43741); (43756, 43757);
    (43763, 43764); (43766, 43766); (43867, 43871); (43881, 43883);
    (44005, 44005); (44008, 44008); (44013, 44013); (64286, 64286);
    (64434, 64450); (65024, 65039); (65043, 65043); (65056, 65071);
    (65106, 65106); (65109, 65109); (65279, 65279); (65287, 65287);
    (65294, 65294); (65306, 65306); (65342, 65342); (65344, 65344);
    (65392, 65392); (65438, 65439); (65507, 65507); (65529, 65531);
    (66045, 66045); (66272, 66272); (66422, 66426); (67456, 67461);
    (67463, 67504); (67506, 67514); (68097, 68099); (68101, 68102);
    (68108, 68111); (68152, 68154); (68159, 68159); (68325, 68326);
    (68900, 68903); (69291, 69292); (69446, 69456); (69506, 69509);
    (69633, 69633); (69688, 69702); (69744, 69744); (69747, 69748);
    (69759, 69761); (69811, 69814); (69817, 69818); (69821, 69821);
    (69826, 69826); (69837, 69837); (69888, 69890); (69927, 69931);
    (69933, 69940); (70003, 70003); (70016, 70017); (70070, 70078);
    (70089, 70092); (70095, 70095); (70191, 70193); (70196, 70196);
    (70198, 70199); (70206, 70206); (70367, 70367); (70371, 70378);
    (70400, 70401); (70459, 70460); (70464, 70464); (70502, 70508);
    (70512, 70516); (70712, 70719); (70722, 70724); (70726, 70726);
    (70750, 70750); (70835, 70840); (70842, 70842); (70847, 70848);
    (70850, 70851); (71090, 71093); (71100, 71101); (71103, 71104);
    (71132, 71133); (71219, 71226); (71229, 71229); (71231, 71232);
    (71339, 71339); (71341, 71341); (71344, 71349); (71351, 71351);
    (71453, 71455); (71458, 71461); (71463, 71467); (71727, 71735);
    (71737, 71738); (71995, 71996); (71998, 71998); (72003, 72003);
    (72148, 72151); (72154, 72155); (72160, 72160); (72193, 72202);
    (72243, 72248); (72251, 72254); (72263, 72263); (72273, 72278);
    (72281, 72283); (72330, 72342); (72344, 72345); (72752, 72758);
    (72760, 72765); (72767, 72767); (72850, 72871); (72874, 72880);
    (72882, 72883); (72885, 72886); (73009, 73014); (73018, 73018);
    (73020, 73021); (73023, 73029); (73031, 73031); (73104, 73105);
    (73109, 73109); (73111, 73111); (73459, 73460); (78896, 78904);
    (92912, 92916); (92976, 92982); (92992, 92995); (94031, 94031);
    (94095, 94111); (94176, 94177); (94179, 94180); (110576, 110579);
    (110581, 110587); (110589, 110590); (113821, 113822); (113824, 113827);
    (118528, 118573); (118576, 118598); (119143, 119145); (119155, 119170);
    (119173, 119179); (119210, 119213); (119362, 119364); (121344, 121398);
    (121403, 121452); (121461, 121461); (121476, 121476); (121499, 121503);
    (121505, 121519); (122880, 122886); (122888, 122904); (122907, 122913);
    (122915, 122916); (122918, 122922); (123184, 123197); (123566, 123566);
    (123628, 123631); (125136, 125142); (125252, 125259); (127995, 127999);
    (917505, 917505); (917536, 917631); (917760, 917999) ].

(** The cased characters among those that are not case-ignorable; the rule of the final sigma tests no others. *)
Definition CASED : list (char * char) :=
  [
    (65, 90); (97, 122); (170, 170); (181, 181); (186, 186); (192, 214);
    (216, 246); (248, 442); (444, 447); (452, 659); (661, 687); (880, 883);
    (886, 887); (891, 893); (895, 895); (902, 902); (904, 906); (908, 908);
    (910, 929); (931, 1013); (1015, 1153); (1162, 1327); (1329, 1366);
    (1376, 1416); (4256, 4293); (4295, 4295); (4301, 4301); (4304, 4346);
    (4349, 4351); (5024, 5109); (5112, 5117); (7296, 7304); (7312, 7354);
    (7357, 7359); (7424, 7467); (7531, 7543); (7545, 7578); (7680, 7957);
    (7960, 7965); (7968, 8005); (8008, 8013); (8016, 8023); (8025, 8025);
    (8027, 8027); (8029, 8029); (8031, 8061); (8064, 8116); (8118, 8124);
    (8126, 8126); (8130, 8132); (8134, 8140); (8144, 8147); (8150, 8155);
    (8160, 8172); (8178, 8180); (8182, 8188); (8450, 8450); (8455, 8455);
    (8458, 8467); (8469, 8469); (8473, 8477); (8484, 8484); (8486, 8486);
    (8488, 8488); (8490, 8493); (8495, 8500); (8505, 8505); (8508, 8511);
    (8517, 8521); (8526, 8526); (8544, 8575); (8579, 8580); (9398, 9449);
    (11264, 11387); (11390, 11492); (11499, 11502); (11506, 11507);
    (11520, 11557); (11559, 11559); (11565, 11565); (42560, 42605);
    (42624, 42651); (42786, 42863); (42865, 42887); (42891, 42894);
    (42896, 42954); (42960, 42961); (42963, 42963); (42965, 42969);
    (42997, 42998); (43002, 43002); (43824, 43866); (43872, 43880);
    (43888, 43967); (64256, 64262); (64275, 64279); (65313, 65338);
    (65345, 65370); (66560, 66639); (66736, 66771); (66776, 66811);
    (66928, 66938); (66940, 66954); (66956, 66962); (66964, 66965);
    (66967, 66977); (66979, 66993); (66995, 67001); (67003, 67004);
    (68736, 68786); (68800, 68850); (71840, 71903); (93760, 93823);
    (119808, 119892); (119894, 119964); (119966, 119967); (119970, 119970);
    (119973, 119974); (119977, 119980); (119982, 119993); (119995, 119995);
    (119997, 120003); (120005, 120069); (120071, 120074); (120077, 120084);
    (120086, 120092); (120094, 120121); (120123, 120126); (120128, 120132);
    (120134, 120134); (120138, 120144); (120146, 120485); (120488, 120512);
    (120514, 120538); (120540, 120570); (120572, 120596); (120598, 120628);
    (120630, 120654); (120656, 120686); (120688, 120712); (120714, 120744);
    (120746, 120770); (120772, 120779); (122624, 122633); (122635, 122654);
    (125184, 125251); (127280, 127305); (127312, 127337); (127344, 127369) ].

(** The lower-case characters that [re.IGNORECASE] takes for a literal
    besides the literal itself. *)
Definition CASE_FIXES : list (char * list char) :=
  [
    (105, [305]); (115, [383]); (181, [956]); (305, [105]); (383, [115]);
    (837, [953; 8126]); (912, [8147]); (944, [8163]); (946, [976]);
    (949, [1013]); (952, [977]); (953, [837; 8126]); (954, [1008]);
    (956, [181]); (960, [982]); (961, [1009]); (962, [963]); (963, [962]);
    (966, [981]); (976, [946]); (977, [952]); (981, [966]); (982, [960]);
    (1008, [954]); (1009, [961]); (1013, [949]); (1074, [7296]);
    (1076, [7297]); (1086, [7298]); (1089, [7299]); (1090, [7300; 7301]);
    (1098, [7302]); (1123, [7303]); (7296, [1074]); (7297, [1076]);
    (7298, [1086]); (7299, [1089]); (7300, [1090; 7301]);
    (7301, [1090; 7300]); (7302, [1098]); (7303, [1123]); (7304, [42571]);
    (7777, [7835]); (7835, [7777]); (8126, [837; 953]); (8147, [912]);
    (8163, [944]); (42571, [7304]); (64261, [64262]); (64262, [64261]) ].

(** [\d] and [str.isdecimal]: the decimal digits of all scripts, which
    [float] and [int] read as well. *)
Definition isdigit (c : char) : bool :=
  existsb (fun z => between z (z + 9) c) DIGIT_ZEROS.

(** The value of a decimal digit. *)
Definition digit_value (c : char) : Z :=
  match find (fun z => between z (z + 9) c) DIGIT_ZEROS with
  | Some z => Z.of_N (c - z)
  | None => 0%Z
  end.

(** [\s] and the characters removed by [str.strip()]. *)
Definition isspace (c : char) : bool := in_ranges WHITESPACE c.

(** [\w] *)
Definition isword (c : char) : bool := in_ranges WORD_CHARACTERS c.

(** The simple lower-case mapping of one character, which [re] uses. *)
Fixpoint lower_in (runs : list (char * char * N * char)) (c : char) : char :=
  match runs with
  | [] => c
  | (lo, hi, step, target) :: runs' =>
      if c <? lo then c
      else if (c <=? hi) && ((c - lo) mod step =? 0) then target + (c - lo)
      else lower_in runs' c
  end.

Definition lower_char (c : char) : char := lower_in LOWER_RUNS c.

(** [s.lower()]: every character by its lower-case mapping, which is the
    simple one except for U+0130; the capital sigma becomes a final sigma
    when a cased character precedes it and none follows, case-ignorable
    characters not counting. *)
Fixpoint skip_ignorable (s : str) : option char :=
  match s with
  | [] => None
  | c :: s' => if in_ranges CASE_IGNORABLE c then skip_ignorable s' else Some c
  end.

Definition final_sigma (before after : str) : bool :=
  match skip_ignorable before with
  | Some c => in_ranges CASED c
  | None => false
  end &&
  match skip_ignorable after with
  | Some c => negb (in_ranges CASED c)
  | None => true
  end.

Definition lower_full (c : char) : str :=
  if c =? 304 then [105; 775] else [lower_char c].

(** [before] holds the characters already passed, the last one first. *)
Fixpoint lower_from (before s : str) : str :=
  match s with
  | [] => []
  | c :: s' =>
      (if c =? 931
       then [if final_sigma before s' then 962 else 963]
       else lower_full c)
      ++ lower_from (c :: before) s'
  end.

Definition lower (s : str) : str := lower_from [] s.

(** What a literal [c] of a pattern matches: the character itself, or with
    [re.IGNORECASE] and a literal that has another case, every character
    whose simple lower-case form is that of the literal or one of its
    equivalents. *)
Definition case_fixes (c : char) : list char :=
  match find (fun e => fst e =? c) CASE_FIXES with
  | Some e => snd e
  | None => []
  end.

Definition lit_matches (ic : bool) (c x : char) : bool :=
  if ic && in_ranges CASED_LITERALS c
  then existsb (N.eqb (lower_char x)) (lower_char c :: case_fixes (lower_char c))
  else x =? c.

Fixpoint str_eqb (a b : str) : bool :=
  match a, b with
  | [], [] => true
  | x :: a', y :: b' => (x =? y) && str_eqb a' b'
  | _, _ => false
  end.

(** [s.startswith(p)] *)
Fixpoint startswith (p s : str) : bool :=
  match p, s with
  | [], _ => true
  | x :: p', y :: s' => (x =? y) && startswith p' s'
  | _ :: _, [] => false
  end.

(** [s.endswith(p)] *)
Definition endswith (p s : str) : bool := startswith (rev p) (rev s).

(** [sub in s] *)
Fixpoint contains (sub s : str) : bool :=
  startswith sub s ||
  match s with
  | [] => false
  | _ :: s' => contains sub s'
  end.

Fixpoint dropwhile (f : char -> bool) (s : str) : str :=
  match s with
  | c :: s' => if f c then dropwhile f s' else s
  | [] => []
  end.

Fixpoint takewhile (f : char -> bool) (s : str) : str :=
  match s with
  | c :: s' => if f c then c :: takewhile f s' else []
  | [] => []
  end.

Definition strip_with (f : char -> bool) (s : str) : str :=
  rev (dropwhile f (rev (dropwhile f s))).

(** [s.strip()] *)
Definition strip (s : str) : str := strip_with isspace s.

(** [s.strip(chars)] *)
Definition strip_chars (chars : str) (s : str) : str :=
  strip_with (fun c => existsb (N.eqb c) chars) s.

(** [s.replace(old, new)] for a non-empty [old]: the occurrences of [old]
    are replaced from left to right, without overlap.  [skip] counts the
    characters of an occurrence that are still to be passed over. *)
Fixpoint replace_from (old new : str) (skip : nat) (s : str) : str :=
  match s with
  | [] => []
  | c :: s' =>
      match skip with
      | S k => replace_from old new k s'
      | O =>
          if startswith old s
          then new ++ replace_from old new (pred (List.length old)) s'
          else c :: replace_from old new O s'
      end
  end.

Definition replace (old new s : str) : str := replace_from old new O s.

(** [float(s)] on the numerals without exponent: optional blanks around an
    optional sign and a decimal numeral with at least one digit.  The value
    is the exact decimal, which [float] rounds to the nearest binary64
    number; the integers of the examples are represented exactly.  [None]
    stands for [ValueError].  The other texts [float] accepts ([inf],
    [nan], exponents, digit-group underscores) contain a letter or an
    underscore and are outside this model.  The blanks [float] passes over
    are the white space but for the four separators U+001C to U+001F. *)
Definition float_blank (c : char) : bool :=
  isspace c && negb (between 28 31 c).

Definition digits_value (ds : str) : Z :=
  fold_left (fun acc c => (10 * acc + digit_value c)%Z) ds 0%Z.

Fixpoint pow10 (n : nat) : positive :=
  match n with
  | O => 1%positive
  | S k => (10 * pow10 k)%positive
  end.

Definition decimal (neg : bool) (ip fp : str) : Q :=
  let m := digits_value (ip ++ fp) in
  Qred (Qmake (if neg then Z.opp m else m) (pow10 (List.length fp))).

Definition nonempty (s : str) : bool :=
  match s with [] => false | _ :: _ => true end.

Definition float (s : str) : option Q :=
  let t := strip_with float_blank s in
  let '(neg, body) :=
    match t with
    | 45 :: r => (true, r)
    | 43 :: r => (false, r)
    | _ => (false, t)
    end in
  let ip := takewhile isdigit body in
  match dropwhile isdigit body with
  | [] => if nonempty ip then Some (decimal neg ip []) else None
  | 46 :: fp =>
      if forallb isdigit fp && (nonempty ip || nonempty fp)
      then Some (decimal neg ip fp) else None
  | _ => None
  end.

(** [int(s)] on a string of decimal digits. *)
Definition int (s : str) : Z := digits_value s.

End PyStr.

(** ** The fragment of Python's [re] that the program uses

    A backtracking matcher: [run] lists the positions at which a match of
    the pattern can end, in the order in which Python's engine tries them
    (greedy repetition and option first, the left alternative first), so
    the head of the list is the match Python reports.  A position is the
    character before it (for [\b]) and the text after it.  Repetition is
    only ever applied to a single character class in the program's
    patterns, and is modelled for these. *)

Module Re.
Import PyStr.

Inductive regex : Type :=
| Empty
| Lit (c : char)
| Class (f : char -> bool)
| WordBoundary
| Seq (r1 r2 : regex)
| Or (r1 r2 : regex)
| Optional (r : regex)
| Many (f : char -> bool)
| Many1 (f : char -> bool).

Definition cursor := (option char * str)%type.

Definition one (f : char -> bool) (s : str) : list cursor :=
  match s with
  | c :: s' => if f c then [(Some c, s')] else []
  | [] => []
  end.

(** [[set]*], longest first. *)
Fixpoint many (f : char -> bool) (prev : option char) (s : str) : list cursor :=
  match s with
  | c :: s' => if f c then many f (Some c) s' ++ [(prev, s)] else [(prev, s)]
  | [] => [(prev, [])]
  end.

Definition word_at (o : option char) : bool :=
  match o with
  | Some c => isword c
  | None => false
  end.

(** [ic] is the flag [re.IGNORECASE]. *)
Fixpoint run (ic : bool) (r : regex) (prev : option char) (s : str) : list cursor :=
  match r with
  | Empty => [(prev, s)]
  | Lit c => one (lit_matches ic c) s
  | Class f => one f s
  | WordBoundary =>
      if xorb (word_at prev) (word_at (hd_error s)) then [(prev, s)] else []
  | Seq r1 r2 =>
      flat_map (fun p => run ic r2 (fst p) (snd p)) (run ic r1 prev s)
  | Or r1 r2 => run ic r1 prev s ++ run ic r2 prev s
  | Optional r1 => run ic r1 prev s ++ [(prev, s)]
  | Many f => many f prev s
  | Many1 f =>
      flat_map (fun p => many f (fst p) (snd p)) (one f s)
  end.

(** [re.search(r, s)] as a truth value: a match at the leftmost position
    where one exists. *)
Fixpoint search_from (ic : bool) (r : regex) (prev : option char) (s : str) : bool :=
  match run ic r prev s with
  | _ :: _ => true
  | [] =>
      match s with
      | [] => false
      | c :: s' => search_from ic r (Some c) s'
      end
  end.

Definition search (ic : bool) (r : regex) (s : str) : bool :=
  search_from ic r None s.

(** [r.findall(s)] for a pattern whose result is the whole match: the
    matches from left to right, each search resuming where the previous
    match ended (one character further after an empty match). *)
Fixpoint findall_from (fuel : nat) (ic : bool) (r : regex)
    (prev : option char) (s : str) : list str :=
  match fuel with
  | O => []
  | S k =>
      match run ic r prev s with
      | (prev', rest) :: _ =>
          let m := firstn (List.length s - List.length rest) s in
          match m, s with
          | [], [] => [m]
          | [], c :: s' => m :: findall_from k ic r (Some c) s'
          | _ :: _, _ => m :: findall_from k ic r prev' rest
          end
      | [] =>
          match s with
          | [] => []
          | c :: s' => findall_from k ic r (Some c) s'
          end
      end
  end.

Definition findall (ic : bool) (r : regex) (s : str) : list str :=
  findall_from (S (List.length s)) ic r None s.

(** Pattern builders. *)
Fixpoint cat (rs : list regex) : regex :=
  match rs with
  | [] => Empty
  | [r] => r
  | r :: rs' => Seq r (cat rs')
  end.

Definition lits (s : string) : regex := cat (map Lit (txt s)).

(** [\d], [\s+] *)
Definition digit : regex := Class isdigit.
Definition spaces1 : regex := Many1 isspace.

End Re.

(** ** [src/app.py]: the metric extraction engine *)

Module App.
Import PyStr Re.

Record FinancialMetric : Type := {
  metric : string;
  value : Q;
  currency : string;
  year : option Z;
  context : str;
  source_file : str;
  page : nat
}.

(** The three non-ASCII string literals of [src/app.py], code point by code
    point as the file stores them (UTF-8 bytes [E2 80 9A C3 87 C2 A8],
    [C2 AC C2 A3] and [E2 80 9A C3 87 CF 80]).  They stand where a euro, a
    pound and a rupee sign are meant, but none of them is that sign. *)
Definition EURO_LITERAL : str := [8218; 199; 168].
Definition POUND_LITERAL : str := [172; 163].
Definition RUPEE_LITERAL : str := [8218; 199; 960].

(** The currency signs themselves: U+20AC, U+00A3, U+20B9. *)
Definition euro_sign : char := 8364.
Definition pound_sign : char := 163.
Definition rupee_sign : char := 8377.

(** A run of words separated by [\s+]. *)
Fixpoint words (ws : list string) : regex :=
  match ws with
  | [] => Empty
  | [w] => lits w
  | w :: ws' => Seq (lits w) (Seq spaces1 (words ws'))
  end.

Definition FINANCIAL_PATTERNS : list (string * list regex) :=
  [ ("Revenue"%string,
      [lits "revenue"; words ["total"; "income"]%string; lits "turnover";
       lits "sales"; words ["income"; "from"; "operations"]%string]);
    ("Gross Profit"%string, [words ["gross"; "profit"]%string]);
    ("Operating Income"%string,
      [words ["operating"; "income"]%string;
       words ["operating"; "profit"]%string; lits "ebit"]);
    ("EBITDA"%string, [lits "ebitda"]);
    ("Net Income"%string,
      [words ["net"; "income"]%string; words ["net"; "profit"]%string;
       words ["profit"; "after"; "tax"]%string; lits "pat"]);
    ("Total Assets"%string, [words ["total"; "assets"]%string]);
    ("Total Liabilities"%string, [words ["total"; "liabilities"]%string]);
    ("Cash Flow"%string,
      [words ["cash"; "flow"]%string;
       words ["net"; "cash"; "from"; "operating"; "activities"]%string]);
    ("EPS"%string,
      [words ["earnings"; "per"; "share"]%string;
       cat [WordBoundary; lits "eps"; WordBoundary]]) ].

(** [\b(19\d{2}|20\d{2})\b]; its one group spans the whole match. *)
Definition YEAR_PATTERN : regex :=
  cat [WordBoundary;
       Or (cat [lits "19"; digit; digit]) (cat [lits "20"; digit; digit]);
       WordBoundary].

(** The character class between the sign and the digits of AMOUNT_PATTERN:
    the dollar sign and the characters of the three literals above. *)
Definition currency_class (c : char) : bool :=
  existsb (N.eqb c) (36 :: EURO_LITERAL ++ POUND_LITERAL ++ RUPEE_LITERAL).

Definition sign_class (c : char) : bool := (c =? 45) || (c =? 43).

Definition digit_or_comma (c : char) : bool := isdigit c || (c =? 44).

Definition AMOUNT_PATTERN : regex :=
  cat [Optional (Lit 40); Optional (Class sign_class);
       Optional (Class currency_class); Optional (Class isspace);
       digit; Many digit_or_comma;
       Optional (Seq (Lit 46) (Many1 isdigit));
       Optional (Lit 41)].

(** [None] is the [ValueError] of [float]. *)
Definition normalize_amount (raw : str) : option Q :=
  let txt0 :=
    strip
      (replace RUPEE_LITERAL []
        (replace POUND_LITERAL []
          (replace EURO_LITERAL []
            (replace (txt "$") [] (replace (txt ",") [] raw))))) in
  let negative := startswith (txt "(") txt0 && endswith (txt ")") txt0 in
  let txt1 := strip_chars (txt "()") txt0 in
  match float txt1 with
  | Some v => Some (if negative then Qopp v else v)
  | None => None
  end.

Definition detect_currency (text : str) : string :=
  let lower := lower text in
  if contains (txt "inr") lower || contains (txt "rs.") lower
     || contains (txt "rs ") lower || contains (txt "rupee") lower
     || contains RUPEE_LITERAL text
  then "INR"%string
  else if contains (txt "usd") lower || contains (txt "$") text
  then "USD"%string
  else if contains (txt "eur") lower || contains EURO_LITERAL text
  then "EUR"%string
  else if contains (txt "gbp") lower || contains POUND_LITERAL text
  then "GBP"%string
  else "Unknown"%string.

Definition extract_years (text : str) : list Z :=
  map int (findall false YEAR_PATTERN text).

Definition assign_years_to_amounts (years : list Z) (amount_count : nat)
    : list (option Z) :=
  if Nat.eqb amount_count 0 then []
  else match years with
  | [] => repeat None amount_count
  | _ :: _ =>
    if Nat.eqb (List.length years) amount_count then map Some years
    else if Nat.eqb (List.length years) 1
    then repeat (Some (nth 0 years 0%Z)) amount_count
    else if Nat.ltb amount_count (List.length years)
    then map Some (skipn (List.length years - amount_count) years)
    else repeat (Some (last years 0%Z)) amount_count
  end.

Fixpoint enumerate_from {A : Type} (i : nat) (l : list A) : list (nat * A) :=
  match l with
  | [] => []
  | x :: l' => (i, x) :: enumerate_from (S i) l'
  end.

(** The amount tokens of a line: the matches of AMOUNT_PATTERN that hold a
    digit, with their spaces removed. *)
Definition amount_tokens (line : str) : list str :=
  filter (search false digit) (findall false AMOUNT_PATTERN line).

Definition amounts_of (line : str) : list str :=
  map (replace (txt " ") []) (amount_tokens line).

(** The body of the loop over FINANCIAL_PATTERNS for one metric whose
    aliases matched: one fact per amount that parses. *)
Definition metric_facts (source : str) (page_number : nat) (line : str)
    (metric_name : string) : list FinancialMetric :=
  let amounts := amounts_of line in
  let years := extract_years line in
  let mapped_years := assign_years_to_amounts years (List.length amounts) in
  flat_map
    (fun ia : nat * str =>
       let (idx, amount) := ia in
       match normalize_amount amount with
       | None => []
       | Some v =>
           [ {| metric := metric_name;
                value := v;
                currency := detect_currency line;
                year := if Nat.ltb idx (List.length mapped_years)
                        then nth idx mapped_years None else None;
                context := line;
                source_file := source;
                page := page_number |} ]
       end)
    (enumerate_from 0 amounts).

(** The body of [for line in lines]. *)
Definition extract_line (source : str) (page_number : nat) (line : str)
    : list FinancialMetric :=
  let normalized_line := lower line in
  flat_map
    (fun entry : string * list regex =>
       let (metric_name, aliases) := entry in
       if existsb (fun alias => search false alias normalized_line) aliases
       then metric_facts source page_number line metric_name
       else [])
    FINANCIAL_PATTERNS.

(** [str.splitlines()] *)
Definition islinebreak (c : char) : bool :=
  between 10 13 c || between 28 30 c || (c =? 133) || (c =? 8232) || (c =? 8233).

Fixpoint splitlines_from (cur : str) (s : str) : list str :=
  match s with
  | [] => if nonempty cur then [rev cur] else []
  | c :: s' =>
      if islinebreak c then
        rev cur ::
        match s' with
        | 10 :: s'' =>
            if c =? 13 then splitlines_from [] s'' else splitlines_from [] s'
        | _ => splitlines_from [] s'
        end
      else splitlines_from (c :: cur) s'
  end.

Definition splitlines (s : str) : list str := splitlines_from [] s.

(** The body of [for page_number, page in enumerate(pdf.pages, start=1)];
    [text] is what [page.extract_text()] returned, if anything. *)
Definition extract_page (source : str) (page_number : nat) (text : option str)
    : list FinancialMetric :=
  let text := match text with Some t => t | None => [] end in
  let lines := filter nonempty (map strip (splitlines text)) in
  flat_map (extract_line source page_number) lines.

(** [extract_financial_metrics]: [source] is [pdf_path.name] and [pages] the
    page texts that the PDF reader yields. *)
Definition extract_financial_metrics (source : str) (pages : list (option str))
    : list FinancialMetric :=
  flat_map (fun ip : nat * option str => extract_page source (fst ip) (snd ip))
    (enumerate_from 1 pages).

End App.

(** ** [src/bank_statement_analyzer.py] *)

Module Bank.
Import PyStr Re.

Definition DEFAULT_COLUMN_ALIASES : list (string * list str) :=
  [ ("date"%string,
      map txt ["date"; "txn date"; "transaction date"; "posted date"]%string);
    ("description"%string,
      map txt ["description"; "narration"; "transaction details"; "merchant";
               "remarks"]%string);
    ("amount"%string,
      map txt ["amount"; "debit"; "withdrawal"; "transaction amount";
               "value"]%string);
    ("credit"%string, map txt ["credit"; "deposit"]%string);
    ("debit"%string, map txt ["debit"; "withdrawal"]%string) ].

(** [DEFAULT_COLUMN_ALIASES[key]]; the five keys the program uses are all
    present. *)
Definition aliases_for (key : string) : list str :=
  match find (fun e => String.eqb (fst e) key) DEFAULT_COLUMN_ALIASES with
  | Some e => snd e
  | None => []
  end.

Record CategoryRule : Type := {
  category : string;
  necessity : string;
  patterns : list regex
}.

Definition rule (c n : string) (ps : list regex) : CategoryRule :=
  {| category := c; necessity := n; patterns := ps |}.

(** Every pattern is compiled with [re.IGNORECASE]; the flag is passed
    where the pattern is searched. *)
Definition CATEGORY_RULES : list CategoryRule :=
  [ rule "Rent / Housing" "Necessity"
      (map lits ["rent"; "landlord"; "mortgage"]%string);
    rule "Groceries" "Necessity"
      [lits "grocery"; lits "supermarket"; lits "mart";
       cat [lits "whole"; Optional (Lit 32); lits "foods"];
       lits "aldi"; lits "walmart"];
    rule "Utilities" "Necessity"
      (map lits ["electric"; "water"; "gas bill"; "internet"; "broadband";
                 "utility"]%string);
    rule "Transport" "Necessity"
      (map lits ["fuel"; "petrol"; "diesel"; "uber"; "lyft"; "metro"; "bus";
                 "train"]%string);
    rule "Healthcare" "Necessity"
      (map lits ["hospital"; "pharmacy"; "doctor"; "clinic"]%string);
    rule "Education" "Necessity"
      (map lits ["tuition"; "school"; "course"; "udemy"; "coursera"]%string);
    rule "Dining / Food Delivery" "Non-necessity"
      (map lits ["restaurant"; "cafe"; "zomato"; "swiggy"; "doordash";
                 "ubereats"]%string);
    rule "Shopping" "Non-necessity"
      (map lits ["amazon"; "flipkart"; "shopping"; "store"]%string);
    rule "Entertainment" "Non-necessity"
      (map lits ["netflix"; "spotify"; "prime"; "movie"; "cinema";
                 "game"]%string);
    rule "Travel" "Non-necessity"
      (map lits ["airlines"; "hotel"; "booking"; "trip"; "vacation"]%string) ].

Definition _find_column (columns : list str) (aliases : list str) : option str :=
  let alias_set := map (fun a => lower (strip a)) aliases in
  find (fun column => existsb (str_eqb (lower (strip column))) alias_set)
    columns.

(** Python's truth value of an optional string: [None] and the empty
    string are false. *)
Definition truthy (o : option str) : bool :=
  match o with
  | Some (_ :: _) => true
  | _ => false
  end.

Definition the (o : option str) : str :=
  match o with
  | Some s => s
  | None => []
  end.

Inductive exn : Type :=
| ValueError (msg : string).

Inductive result (A : Type) : Type :=
| Ok (a : A)
| Raise (e : exn).
Arguments Ok {A} a.
Arguments Raise {A} e.

(** Which branch of [if amount_col: ... elif credit_col and debit_col: ...
    else: raise] is taken. *)
Inductive amount_source : Type :=
| Direct (amount_col : str)
| CreditMinusDebit (credit_col debit_col : str)
| Unresolved.

Definition amount_source_of (amount_col credit_col debit_col : option str)
    : amount_source :=
  if truthy amount_col then Direct (the amount_col)
  else if truthy credit_col && truthy debit_col
  then CreditMinusDebit (the credit_col) (the debit_col)
  else Unresolved.

(** One row of the normalized table.  An amount is the exact decimal that
    the cell denotes; pandas holds it as a binary64 number. *)
Record Transaction : Type := {
  Date : Z;
  Description : str;
  Amount : Q
}.

Definition MSG_DATE_DESCRIPTION : string :=
  "Input file must contain date and description columns. Accepted names include Date/Transaction Date and Description/Narration.".

Definition MSG_AMOUNT : string :=
  "Input file must have either an Amount column or both Credit and Debit columns.".

Section Pandas.

(** The table reader and the coercions of pandas are collaborators of the
    program: a cell is whatever the reader yields, [to_datetime] and
    [to_numeric] are the coercions with [errors="coerce"] on one cell
    ([None] for [NaT] and [NaN]), and [astype_str] is [astype(str)]. *)
Variable cell : Type.
Variable to_datetime : cell -> option Z.
Variable to_numeric : cell -> option Q.
Variable astype_str : cell -> str.

(** A table: its columns in order, each a header and the cells below it.
    Headers are distinct, as the reader makes them. *)
Definition DataFrame : Type := list (str * list cell).

Definition df_columns (df : DataFrame) : list str := map fst df.

(** [df[name]] *)
Definition df_get (df : DataFrame) (name : str) : list cell :=
  match find (fun c => str_eqb (fst c) name) df with
  | Some c => snd c
  | None => []
  end.

Definition fillna0 (v : option Q) : Q :=
  match v with
  | Some q => q
  | None => 0%Q
  end.

(** [normalized.dropna(subset=["Date", "Description", "Amount"])]: the
    description is a string after [astype(str)] and is never missing. *)
Definition dropna (dates : list (option Z)) (descriptions : list str)
    (amounts : list (option Q)) : list Transaction :=
  flat_map
    (fun r : option Z * (str * option Q) =>
       match r with
       | (Some d, (s, Some a)) => [ {| Date := d; Description := s; Amount := a |} ]
       | _ => []
       end)
    (combine dates (combine descriptions amounts)).

Definition amount_series (df : DataFrame) (src : amount_source)
    : option (list (option Q)) :=
  match src with
  | Direct amount_col => Some (map to_numeric (df_get df amount_col))
  | CreditMinusDebit credit_col debit_col =>
      let credit := map (fun c => fillna0 (to_numeric c)) (df_get df credit_col) in
      let debit := map (fun c => fillna0 (to_numeric c)) (df_get df debit_col) in
      Some (map (fun cd : Q * Q => Some (Qminus (fst cd) (snd cd)))
              (combine credit debit))
  | Unresolved => None
  end.

Definition normalize_columns (df : DataFrame) : result (list Transaction) :=
  let columns := df_columns df in
  let date_col := _find_column columns (aliases_for "date") in
  let description_col := _find_column columns (aliases_for "description") in
  let amount_col := _find_column columns (aliases_for "amount") in
  let credit_col := _find_column columns (aliases_for "credit") in
  let debit_col := _find_column columns (aliases_for "debit") in
  if negb (truthy date_col) || negb (truthy description_col)
  then Raise (ValueError MSG_DATE_DESCRIPTION)
  else
    let dates := map to_datetime (df_get df (the date_col)) in
    let descriptions :=
      map (fun c => strip (astype_str c)) (df_get df (the description_col)) in
    match amount_series df (amount_source_of amount_col credit_col debit_col) with
    | Some amounts => Ok (dropna dates descriptions amounts)
    | None => Raise (ValueError MSG_AMOUNT)
    end.

End Pandas.

Arguments df_columns {cell} df.
Arguments df_get {cell} df name.
Arguments amount_series {cell} to_numeric df src.
Arguments normalize_columns {cell} to_datetime to_numeric astype_str df.

(** [categorize]: the loop over the rules returns at the first rule one of
    whose patterns is found in the description. *)
Definition rule_matches (r : CategoryRule) (description : str) : bool :=
  existsb (fun pattern => search true pattern description) (patterns r).

Fixpoint categorize_with (rules : list CategoryRule) (description : str)
    : string * string :=
  match rules with
  | [] => ("Other"%string, "Non-necessity"%string)
  | r :: rules' =>
      if rule_matches r description then (category r, necessity r)
      else categorize_with rules' description
  end.

Definition categorize (description : str) : string * string :=
  categorize_with CATEGORY_RULES description.

(** A row of [sorted_df]: the transaction with its two labels. *)
Record Labelled : Type := {
  txn : Transaction;
  Category : string;
  Necessity : string
}.

(** [sort_values]: insertion into an ordered list.  pandas leaves the
    order of rows with equal keys open; here the earlier row stays first. *)
Fixpoint insert_by {A : Type} (le : A -> A -> bool) (x : A) (l : list A) : list A :=
  match l with
  | [] => [x]
  | y :: l' => if le x y then x :: l else y :: insert_by le x l'
  end.

Definition sort_by {A : Type} (le : A -> A -> bool) (l : list A) : list A :=
  fold_right (insert_by le) [] l.

(** [groupby(keys)["Spend"].sum()]: one total per key.  The keys come in
    the order of their first row; the summaries are sorted by total
    afterwards. *)
Fixpoint add_spend {K : Type} (eqb : K -> K -> bool) (key : K) (v : Q)
    (acc : list (K * Q)) : list (K * Q) :=
  match acc with
  | [] => [(key, v)]
  | (k, t) :: acc' =>
      if eqb k key then (k, Qplus t v) :: acc'
      else (k, t) :: add_spend eqb key v acc'
  end.

Definition group_sum {K : Type} (eqb : K -> K -> bool) (rows : list (K * Q))
    : list (K * Q) :=
  fold_left (fun acc r => add_spend eqb (fst r) (snd r) acc) rows [].

Definition pair_eqb (a b : string * string) : bool :=
  String.eqb (fst a) (fst b) && String.eqb (snd a) (snd b).

Definition label (t : Transaction) : Labelled :=
  let cn := categorize (Description t) in
  {| txn := t; Category := fst cn; Necessity := snd cn |}.

Definition is_expense (r : Labelled) : bool :=
  match Qcompare (Amount (txn r)) 0 with
  | Lt => true
  | _ => false
  end.

Definition Spend (r : Labelled) : Q := Qabs (Amount (txn r)).

Definition by_spend_desc {K : Type} (a b : K * Q) : bool :=
  Qle_bool (snd b) (snd a).

Definition analyze_statement (df : list Transaction)
    : list Labelled * list ((string * string) * Q) * list (string * Q) :=
  let sorted_df :=
    map label (sort_by (fun a b => Z.leb (Date a) (Date b)) df) in
  let expenses := filter is_expense sorted_df in
  let summary_by_category :=
    sort_by by_spend_desc
      (group_sum pair_eqb
         (map (fun r => ((Category r, Necessity r), Spend r)) expenses)) in
  let summary_by_need :=
    sort_by by_spend_desc
      (group_sum String.eqb (map (fun r => (Necessity r, Spend r)) expenses)) in
  (sorted_df, summary_by_category, summary_by_need).

End Bank.

Import PyStr Re App Bank.

(** * Vocabulary of the properties *)

(** [a] occurs in [s] as a substring. *)
Definition infix (a s : str) : Prop := exists pre post, s = pre ++ a ++ post.

(** The line of the end-to-end scenario and a line with a rupee amount. *)
Definition NET_INCOME_LINE : str := txt "Net Income 2021 2022 1,000 (200)".
Definition RUPEE_AMOUNT : str := rupee_sign :: txt " 3,450".

Definition fact_of (source : str) (page_number : nat) (line : str)
    (name cur : string) (y : option Z) (v : Q) : FinancialMetric :=
  {| metric := name; value := v; currency := cur; year := y;
     context := line; source_file := source; page := page_number |}.

(** The currency table in the words of the specification: the four signs
    and the three rupee keywords, anything else unknown. *)
Definition currency_table_spec (text : str) : string :=
  let lower := lower text in
  if contains [rupee_sign] text || contains (txt "inr") lower
     || contains (txt "rs.") lower || contains (txt "rupee") lower
  then "INR"%string
  else if contains (txt "$") text then "USD"%string
  else if contains [euro_sign] text then "EUR"%string
  else if contains [pound_sign] text then "GBP"%string
  else "Unknown"%string.

(** The keywords of the rupee, searched in the lower-cased line. *)
Definition inr_keyword (lower : str) : bool :=
  contains (txt "inr") lower || contains (txt "rs.") lower
  || contains (txt "rs ") lower || contains (txt "rupee") lower.

(** The table of keywords and of the dollar sign, in priority order. *)
Definition keyword_table (text : str) : string :=
  let lower := lower text in
  if inr_keyword lower then "INR"%string
  else if contains (txt "usd") lower || contains (txt "$") text then "USD"%string
  else if contains (txt "eur") lower then "EUR"%string
  else if contains (txt "gbp") lower then "GBP"%string
  else "Unknown"%string.

Definition is_ascii (c : char) : bool := c <? 128.


(** A logical field is resolved by a list of headers when one of them,
    trimmed and lower-cased, is one of the field's aliases. *)
Definition resolves (columns : list str) (key : string) : Prop :=
  exists c, In c columns /\
    In (lower (strip c)) (map (fun a => lower (strip a)) (aliases_for key)).

(** A header as it is compared with the aliases, and whether the lookup
    of a field in the headers of a table finds a column. *)
Definition norm (s : str) : str := lower (strip s).

Definition found {cell : Type} (df : DataFrame cell) (key : string) : bool :=
  truthy (_find_column (df_columns df) (aliases_for key)).

(** What makes column reconciliation fail, in the words of the
    specification. *)
Definition unresolvable (columns : list str) : Prop :=
  ~ resolves columns "date" \/ ~ resolves columns "description" \/
  (~ resolves columns "amount" /\
   ~ (resolves columns "credit" /\ resolves columns "debit")).

(** A sample of table cells, each given by what the three coercions make
    of it; a reading that an example does not use is left empty. *)
Record sample_cell : Type := {
  as_date : option Z;
  as_number : option Q;
  as_text : str
}.

Definition date_cell (t : Z) : sample_cell :=
  {| as_date := Some t; as_number := None; as_text := [] |}.
Definition text_cell (s : string) : sample_cell :=
  {| as_date := None; as_number := None; as_text := txt s |}.
Definition number_cell (q : Q) : sample_cell :=
  {| as_date := None; as_number := Some q; as_text := [] |}.
Definition blank_cell : sample_cell :=
  {| as_date := None; as_number := None; as_text := txt "nan" |}.

(** The table of the column-reconciliation scenario: a withdrawal of 100
    and a deposit of 2500. *)
Definition DEBIT_CREDIT_TABLE : DataFrame sample_cell :=
  [ (txt "Txn Date", [date_cell 1; date_cell 2]);
    (txt "Narration", [text_cell "ATM withdrawal"; text_cell "Salary"]);
    (txt "Debit", [number_cell (100 # 1); blank_cell]);
    (txt "Credit", [blank_cell; number_cell (2500 # 1)]) ].

(** The total spend of a key: the sum of [|amount|] over the rows with a
    negative amount whose key is [k]. *)
Definition qsum (l : list Q) : Q := fold_right Qplus 0%Q l.

Definition spend_of {K : Type} (eqb : K -> K -> bool) (key_of : Labelled -> K)
    (k : K) (rows : list Labelled) : Q :=
  qsum (map Spend (filter (fun r => eqb (key_of r) k) (filter is_expense rows))).

(** A summary holds one line per key that has a row with a negative
    amount, and the line of a key holds its total spend. *)
Definition summarises {K : Type} (eqb : K -> K -> bool)
    (key_of : Labelled -> K) (rows : list Labelled) (summary : list (K * Q))
    : Prop :=
  NoDup (map fst summary) /\
  (forall k, In k (map fst summary) <->
     exists r, In r rows /\ (Amount (txn r) < 0)%Q /\ key_of r = k) /\
  (forall k t, In (k, t) summary -> (t == spend_of eqb key_of k rows)%Q).

(** The total of the rows of key [k] in a list of keyed amounts. *)
Definition total {K : Type} (eqb : K -> K -> bool) (k : K)
    (rows : list (K * Q)) : Q :=
  qsum (map snd (filter (fun r => eqb (fst r) k) rows)).

(** The total that a summary holds for a key, if any. *)
Fixpoint assoc {K : Type} (eqb : K -> K -> bool) (k : K) (l : list (K * Q))
    : option Q :=
  match l with
  | [] => None
  | (k0, t) :: l' => if eqb k0 k then Some t else assoc eqb k l'
  end.

(** What the accumulator of [group_sum] holds once the rows [done] have
    been added: one line per key of [done], with the total of the key. *)
Definition grouped {K : Type} (eqb : K -> K -> bool)
    (acc done : list (K * Q)) : Prop :=
  NoDup (map fst acc) /\
  (forall k, In k (map fst acc) <-> In k (map fst done)) /\
  (forall k t, assoc eqb k acc = Some t -> (t == total eqb k done)%Q).

(** The order that a comparison function decides. *)
Definition ordered_by {A : Type} (le : A -> A -> bool) (a b : A) : Prop :=
  le a b = true.

Definition descending {K : Type} (summary : list (K * Q)) : Prop :=
  StronglySorted (fun a b => (snd b <= snd a)%Q) summary.

Definition by_date (a b : Labelled) : Prop :=
  (Date (txn a) <= Date (txn b))%Z.

(** The texts a pattern can span, whatever surrounds them: what a match
    consumes, read off the pattern. *)
Fixpoint spans (ic : bool) (r : regex) (m : str) : Prop :=
  match r with
  | Empty => m = []
  | Lit c => exists x, m = [x] /\ lit_matches ic c x = true
  | Class f => exists x, m = [x] /\ f x = true
  | WordBoundary => m = []
  | Seq r1 r2 => exists a b, m = a ++ b /\ spans ic r1 a /\ spans ic r2 b
  | Or r1 r2 => spans ic r1 m \/ spans ic r2 m
  | Optional r1 => spans ic r1 m \/ m = []
  | Many f => forallb f m = true
  | Many1 f => m <> [] /\ forallb f m = true
  end.

(** A year of the range the year pattern accepts. *)
Definition plausible_year (y : Z) : Prop := (1900 <= y <= 2099)%Z.

(** The text of a page, empty when the reader returned nothing. *)
Definition page_text (text : option str) : str :=
  match text with
  | Some t => t
  | None => []
  end.

Definition CURRENCIES : list string :=
  ["INR"; "USD"; "EUR"; "GBP"; "Unknown"]%string.

(** [l] is a line of [text]: a stretch of it without a line break, that
    starts at the start of the text or just after a line break and ends
    at the end of the text or just before a line break. *)
Definition line_of (l text : str) : Prop :=
  exists pre post,
    text = pre ++ l ++ post /\
    forallb (fun c => negb (islinebreak c)) l = true /\
    (pre = [] \/ exists pre' b, pre = pre' ++ [b] /\ islinebreak b = true) /\
    (post = [] \/ exists b post', post = b :: post' /\ islinebreak b = true).

(** What a fact of a page records about where it comes from: the document
    and the page, and as its context a line of the page text trimmed of
    its surrounding blanks, which is not empty. *)
Definition traceable (source : str) (page_number : nat) (text : option str)
    (f : FinancialMetric) : Prop :=
  source_file f = source /\ page f = page_number /\
  (exists l, line_of l (page_text text) /\ context f = strip l) /\
  context f <> [] /\ strip (context f) = context f /\
  In (metric f) (map fst FINANCIAL_PATTERNS) /\
  currency f = detect_currency (context f) /\ In (currency f) CURRENCIES.

(** Facts in the order of their pages. *)
Definition page_order (a b : FinancialMetric) : Prop := (page a <= page b)%nat.

(** A fact of a document of [n] pages. *)
Definition of_document (source : str) (n : nat) (f : FinancialMetric) : Prop :=
  source_file f = source /\ (1 <= page f <= n)%nat.

(** A text of digits, decimal points and signs: the characters of a plain
    numeral. *)
Definition numeral_char (c : char) : bool :=
  isdigit c || (c =? 46) || (c =? 45) || (c =? 43).

(** The pairs of labels that a description can get. *)
Definition LABELS : list (string * string) :=
  [ ("Rent / Housing", "Necessity"); ("Groceries", "Necessity");
    ("Utilities", "Necessity"); ("Transport", "Necessity");
    ("Healthcare", "Necessity"); ("Education", "Necessity");
    ("Dining / Food Delivery", "Non-necessity"); ("Shopping", "Non-necessity");
    ("Entertainment", "Non-necessity"); ("Travel", "Non-necessity");
    ("Other", "Non-necessity") ]%string.

(** A pattern made of literal characters only. *)
Fixpoint literal_only (r : regex) : bool :=
  match r with
  | Empty | Lit _ => true
  | Seq r1 r2 | Or r1 r2 => literal_only r1 && literal_only r2
  | Optional r1 => literal_only r1
  | Class _ | WordBoundary | Many _ | Many1 _ => false
  end.

(** The letters A to Z in lower case, every other character unchanged. *)
Definition ascii_lower (c : char) : char :=
  if between 65 90 c then c + 32 else c.

(** Two positions of a match, one in a text and one in the same text with
    its ASCII letters in lower case, with the same text left. *)
Definition lower_related (a b : cursor) : Prop :=
  snd a = map ascii_lower (snd b).

(** The spend of a table: the sum of [|amount|] over its rows with a
    negative amount. *)
Definition is_outflow (t : Transaction) : bool :=
  match Qcompare (Amount t) 0 with
  | Lt => true
  | _ => false
  end.

Definition total_spend (df : list Transaction) : Q :=
  qsum (map (fun t => Qabs (Amount t)) (filter is_outflow df)).

(** The three results of [analyze_statement]. *)
Definition sorted_of (df : list Transaction) : list Labelled :=
  fst (fst (analyze_statement df)).
Definition by_category_of (df : list Transaction)
    : list ((string * string) * Q) :=
  snd (fst (analyze_statement df)).
Definition by_need_of (df : list Transaction) : list (string * Q) :=
  snd (analyze_statement df).

(** The row comes from the cells of one line of the table: its date, its
    description and its amount are the readings of the cells at the same
    position of the three columns. *)
Definition row_of_cells {cell : Type} (to_datetime : cell -> option Z)
    (to_numeric : cell -> option Q) (astype_str : cell -> str)
    (dates descriptions amounts : list cell) (row : Transaction) : Prop :=
  exists (i : nat) (c1 c2 c3 : cell),
    nth_error dates i = Some c1 /\ to_datetime c1 = Some (Date row) /\
    nth_error descriptions i = Some c2 /\
    Description row = strip (astype_str c2) /\
    nth_error amounts i = Some c3 /\ to_numeric c3 = Some (Amount row).

(** A character that is neither a blank, nor a parenthesis, nor removed by
    [normalize_amount]. *)
Definition plain_char (c : char) : bool :=
  negb (isspace c) && negb (c =? 40) && negb (c =? 41) && negb (c =? 44)
  && negb (c =? 36) && negb (c =? 8218) && negb (c =? 172).

(** * Properties *)

(** ** Year-to-amount alignment *)

Section YearAlignment.

Variable years : list Z.
Variable amount_count : nat.

Lemma assign_years_length :
  List.length (assign_years_to_amounts years amount_count) = amount_count.
Proof.
  unfold assign_years_to_amounts.
  destruct (Nat.eqb_spec amount_count 0) as [-> | Hn]; [reflexivity |].
  destruct years as [| y ys] eqn:Ey; [apply repeat_length |].
  rewrite <- Ey.
  destruct (Nat.eqb_spec (List.length years) amount_count) as [Hl | Hl].
  - now rewrite length_map.
  - destruct (Nat.eqb (List.length years) 1); [apply repeat_length |].
    destruct (Nat.ltb_spec amount_count (List.length years)) as [Hlt | Hge].
    + rewrite length_map, length_skipn. lia.
    + apply repeat_length.
Qed.

End YearAlignment.

(** C2. The alignment of years to amounts, branch by branch: no amount, no
    result; no year, every year unset; as many years as amounts, the years
    in order; one year, that year for every amount; more years than
    amounts, the right-most [amount_count] years in order; fewer years
    than amounts and more than one year, the last year for every amount. *)
Theorem assign_years_to_amounts_cases :
  forall (years : list Z) (amount_count : nat),
    let r := assign_years_to_amounts years amount_count in
    (amount_count = 0%nat -> r = []) /\
    (years = [] -> r = repeat None amount_count) /\
    (List.length years = amount_count -> r = map Some years) /\
    (forall y, years = [y] -> r = repeat (Some y) amount_count) /\
    ((amount_count < List.length years)%nat ->
       r = map Some (skipn (List.length years - amount_count) years)) /\
    ((1 < List.length years)%nat -> (List.length years < amount_count)%nat ->
       r = repeat (Some (last years 0%Z)) amount_count).
Proof.
  intros years n r. subst r. unfold assign_years_to_amounts.
  destruct (Nat.eqb_spec n 0) as [-> | Hn].
  - repeat split; intros; try reflexivity.
    all: try (now destruct years).
    all: try (now rewrite Nat.sub_0_r, skipn_all).
    all: try lia.
  - destruct years as [| y ys] eqn:Ey.
    + repeat split; intros; simpl in *; try reflexivity; try lia; try discriminate.
    + rewrite <- Ey.
      destruct (Nat.eqb_spec (List.length years) n) as [Hl | Hl].
      * repeat split; intros; try reflexivity; try lia; try (subst years; discriminate).
        match goal with H : years = [_] |- _ => rewrite H in * end.
        simpl in Hl. subst n. reflexivity.
      * destruct (Nat.eqb_spec (List.length years) 1) as [H1 | H1].
        -- repeat split; intros; try reflexivity; try lia; try (subst years; discriminate).
           match goal with H : years = [_] |- _ => rewrite H end. reflexivity.
        -- destruct (Nat.ltb_spec n (List.length years)) as [Hlt | Hge];
             repeat split; intros; try reflexivity; try lia;
             try (subst years; discriminate);
             match goal with H : years = [_] |- _ => rewrite H in H1; simpl in H1; lia end.
Qed.

Lemma assign_years_to_amounts_cases_witness :
  assign_years_to_amounts [2021; 2022]%Z 2 = [Some 2021; Some 2022]%Z /\
  assign_years_to_amounts [2020]%Z 3 = [Some 2020; Some 2020; Some 2020]%Z /\
  assign_years_to_amounts [2019; 2020; 2021]%Z 2 = [Some 2020; Some 2021]%Z /\
  assign_years_to_amounts [] 2 = [None; None] /\
  assign_years_to_amounts [2021; 2022]%Z 4
  = [Some 2022; Some 2022; Some 2022; Some 2022]%Z.
Proof.
  split; [| split; [| split; [| split]]].
  - exact (proj1 (proj2 (proj2 (assign_years_to_amounts_cases [2021; 2022]%Z 2)))
             eq_refl).
  - exact (proj1 (proj2 (proj2 (proj2 (assign_years_to_amounts_cases [2020]%Z 3))))
             2020%Z eq_refl).
  - apply (proj1 (proj2 (proj2 (proj2 (proj2
             (assign_years_to_amounts_cases [2019; 2020; 2021]%Z 2)))))).
    simpl. lia.
  - exact (proj1 (proj2 (assign_years_to_amounts_cases [] 2)) eq_refl).
  - apply (proj2 (proj2 (proj2 (proj2 (proj2
             (assign_years_to_amounts_cases [2021; 2022]%Z 4)))))); simpl; lia.
Defined.

(** ** Where a match can end, and what [findall] returns *)

Section Matching.

Variable ic : bool.

Lemma one_suffix (f : char -> bool) (s : str) (p : cursor) :
  In p (one f s) -> exists c, s = c :: snd p.
Proof.
  destruct s as [| c s']; simpl; [intros [] |].
  destruct (f c); simpl; [| intros []].
  intros [<- | []]. now exists c.
Qed.

Lemma many_suffix (f : char -> bool) :
  forall (s : str) (prev : option char) (p : cursor),
    In p (many f prev s) -> exists pre, s = pre ++ snd p.
Proof.
  induction s as [| c s' IH]; intros prev p; simpl.
  - intros [<- | []]. now exists [].
  - destruct (f c).
    + rewrite in_app_iff. intros [H | [<- | []]].
      * destruct (IH _ _ H) as [pre ->]. now exists (c :: pre).
      * now exists [].
    + intros [<- | []]. now exists [].
Qed.

Lemma run_suffix (r : regex) :
  forall (prev : option char) (s : str) (p : cursor),
    In p (run ic r prev s) -> exists pre, s = pre ++ snd p.
Proof.
  induction r as [| c | f | | r1 IH1 r2 IH2 | r1 IH1 r2 IH2 | r1 IH1 | f | f];
    intros prev s p; simpl.
  - intros [<- | []]. now exists [].
  - intros H. apply one_suffix in H as [x ->]. now exists [x].
  - intros H. apply one_suffix in H as [x ->]. now exists [x].
  - destruct (xorb _ _); simpl; [| intros []]. intros [<- | []]. now exists [].
  - rewrite in_flat_map. intros [q [Hq Hp]].
    destruct (IH1 _ _ _ Hq) as [pre1 ->].
    destruct (IH2 _ _ _ Hp) as [pre2 E2].
    exists (pre1 ++ pre2). now rewrite E2 at 1; rewrite app_assoc.
  - rewrite in_app_iff. intros [H | H]; eauto.
  - rewrite in_app_iff. intros [H | [<- | []]]; eauto. now exists [].
  - apply many_suffix.
  - rewrite in_flat_map. intros [q [Hq Hp]].
    apply one_suffix in Hq as [x ->].
    apply many_suffix in Hp as [pre E]. exists (x :: pre). simpl. now rewrite E at 1.
Qed.

Lemma firstn_prefix (pre rest : str) :
  firstn (List.length (pre ++ rest) - List.length rest) (pre ++ rest) = pre.
Proof.
  rewrite length_app, Nat.add_sub.
  rewrite firstn_app, Nat.sub_diag, firstn_all. simpl. apply app_nil_r.
Qed.

Lemma infix_cons (m s : str) (c : char) : infix m s -> infix m (c :: s).
Proof. intros [a [b ->]]. now exists (c :: a), b. Qed.

Lemma infix_app (m pre s : str) : infix m s -> infix m (pre ++ s).
Proof. intros [a [b ->]]. exists (pre ++ a), b. now rewrite app_assoc. Qed.

Lemma infix_nil (s : str) : infix [] s.
Proof. now exists [], s. Qed.

Lemma infix_prefix (pre rest : str) : infix pre (pre ++ rest).
Proof. now exists [], rest. Qed.

(** Every string returned by [findall] is a substring of the text. *)
Lemma findall_from_infix (r : regex) :
  forall (fuel : nat) (prev : option char) (s m : str),
    In m (findall_from fuel ic r prev s) -> infix m s.
Proof.
  induction fuel as [| k IH]; intros prev s m; simpl; [intros [] |].
  destruct (run ic r prev s) as [| [prev' rest] l] eqn:E.
  - destruct s as [| c s']; [intros [] |]. intros H. apply infix_cons. eauto.
  - assert (Hs : exists pre, s = pre ++ rest).
    { apply (run_suffix r prev s (prev', rest)). rewrite E. now left. }
    destruct Hs as [pre ->]. rewrite firstn_prefix.
    destruct pre as [| x pre'].
    + simpl. destruct rest as [| c s'].
      * intros [<- | []]. apply infix_nil.
      * intros [<- | H]; [apply infix_nil |]. apply infix_cons. eauto.
    + intros [<- | H]; [apply infix_prefix |]. apply infix_app. eauto.
Qed.

(** The fuel [findall] starts with never runs out: each search resumes on
    a strictly shorter text, so any larger fuel gives the same matches. *)
Lemma findall_from_fuel (r : regex) :
  forall (n m : nat) (prev : option char) (s : str),
    (List.length s < n)%nat -> (List.length s < m)%nat ->
    findall_from n ic r prev s = findall_from m ic r prev s.
Proof.
  induction n as [| n IH]; intros m prev s Hn Hm; [lia |].
  destruct m as [| m]; [lia |]. simpl.
  destruct (run ic r prev s) as [| [prev' rest] l] eqn:E.
  - destruct s as [| c s']; [reflexivity |]. simpl in Hn, Hm.
    apply IH; lia.
  - assert (Hs : exists pre, s = pre ++ rest).
    { apply (run_suffix r prev s (prev', rest)). rewrite E. now left. }
    destruct Hs as [pre ->]. rewrite firstn_prefix.
    rewrite length_app in Hn, Hm.
    destruct pre as [| x pre'].
    + simpl. destruct rest as [| c s']; [reflexivity |].
      simpl in Hn, Hm. f_equal. apply IH; lia.
    + simpl in Hn, Hm. f_equal. apply IH; lia.
Qed.

End Matching.

Lemma search_digit (a : str) : search false digit a = existsb isdigit a.
Proof.
  unfold search. generalize (@None char).
  induction a as [| c a' IH]; intros prev; simpl; [reflexivity |].
  destruct (isdigit c); simpl; [reflexivity | apply IH].
Qed.

Lemma existsb_infix (f : char -> bool) (a s : str) :
  infix a s -> existsb f a = true -> existsb f s = true.
Proof.
  intros [pre [post ->]] H. rewrite !existsb_app, H. apply orb_true_r.
Qed.

Lemma amount_tokens_spec (line token : str) :
  In token (amount_tokens line) ->
  infix token line /\ existsb isdigit token = true.
Proof.
  unfold amount_tokens. rewrite filter_In, search_digit. intros [H Hd].
  split; [| exact Hd]. unfold findall in H. eapply findall_from_infix; eauto.
Qed.

Lemma enumerate_from_In {A : Type} (l : list A) :
  forall (k i : nat) (x : A), In (i, x) (enumerate_from k l) -> In x l.
Proof.
  induction l as [| y l' IH]; intros k i x; simpl; [intros [] |].
  intros [H | H]; [left; congruence | right; eauto].
Qed.

(** A fact of a line records the line and the value of one of its amount
    tokens. *)
Lemma metric_facts_spec (source : str) (page_number : nat) (line : str)
    (name : string) (f : FinancialMetric) :
  In f (metric_facts source page_number line name) ->
  context f = line /\ metric f = name /\
  exists token, In token (amount_tokens line) /\
    normalize_amount (replace (txt " ") [] token) = Some (value f).
Proof.
  unfold metric_facts. rewrite in_flat_map. intros [[idx amount] [Hin Hf]].
  apply enumerate_from_In in Hin. unfold amounts_of in Hin.
  apply in_map_iff in Hin as [token [<- Htok]].
  destruct (normalize_amount _) as [v |] eqn:Ev; [| contradiction].
  destruct Hf as [<- | []]. simpl. repeat split. now exists token.
Qed.

Lemma extract_line_spec (source : str) (page_number : nat) (line : str)
    (f : FinancialMetric) :
  In f (extract_line source page_number line) ->
  context f = line /\
  exists token, In token (amount_tokens line) /\
    normalize_amount (replace (txt " ") [] token) = Some (value f).
Proof.
  unfold extract_line. rewrite in_flat_map. intros [[name aliases] [_ Hf]].
  destruct (existsb _ aliases); [| contradiction].
  apply metric_facts_spec in Hf. tauto.
Qed.

(** C6. A line without a digit yields no fact, whatever aliases it matches;
    and every fact of a line records that line as its context and carries
    the value of a substring of the line that holds a digit. *)
Theorem facts_need_digits :
  forall (source : str) (page_number : nat) (line : str),
    (existsb isdigit line = false ->
       extract_line source page_number line = []) /\
    (forall f, In f (extract_line source page_number line) ->
       context f = line /\
       exists token,
         infix token line /\ existsb isdigit token = true /\
         normalize_amount (replace (txt " ") [] token) = Some (value f)).
Proof.
  intros source page_number line.
  assert (Hfacts : forall f, In f (extract_line source page_number line) ->
       context f = line /\
       exists token,
         infix token line /\ existsb isdigit token = true /\
         normalize_amount (replace (txt " ") [] token) = Some (value f)).
  { intros f Hf. apply extract_line_spec in Hf as [Hc [token [Htok Hv]]].
    apply amount_tokens_spec in Htok as [Hi Hd]. split; [exact Hc |].
    exists token. auto. }
  split; [| exact Hfacts].
  intros Hnone. destruct (extract_line source page_number line) as [| f l] eqn:E;
    [reflexivity |].
  destruct (Hfacts f (or_introl eq_refl)) as [_ [token [Hi [Hd _]]]].
  rewrite (existsb_infix _ _ _ Hi Hd) in Hnone. discriminate.
Qed.

Lemma facts_need_digits_witness :
  extract_line (txt "report.pdf") 1 (txt "Total revenue and net income") = [].
Proof.
  apply (proj1 (facts_need_digits (txt "report.pdf") 1
                  (txt "Total revenue and net income"))).
  reflexivity.
Defined.

(** ** The end-to-end scenario *)

(** C1. On the line [Net Income 2021 2022 1,000 (200)] the engine emits
    four facts, not two: AMOUNT_PATTERN matches the two year tokens as
    amounts as well, so four amounts face two years and every one of them
    gets the last year. *)
Theorem net_income_line_facts :
  forall (source : str) (page_number : nat),
    amounts_of NET_INCOME_LINE = map txt ["2021"; "2022"; "1,000"; "(200)"]%string /\
    extract_years NET_INCOME_LINE = [2021; 2022]%Z /\
    extract_line source page_number NET_INCOME_LINE =
      map (fact_of source page_number NET_INCOME_LINE "Net Income" "Unknown"
             (Some 2022%Z))
        [2021 # 1; 2022 # 1; 1000 # 1; - 200 # 1]%Q.
Proof.
  intros source page_number. repeat split; vm_compute; reflexivity.
Qed.

(** ** Amount normalization and the currency of a line *)

(** C3. [(1,200.00)] normalizes to -1200, and the amount extracted from
    the rupee amount is [3,450], which normalizes to 3450; but the currency
    of that line is resolved as Unknown, and [normalize_amount] applied to
    the text with its rupee sign fails: the program compares with
    RUPEE_LITERAL, which is not the rupee sign.  With RUPEE_LITERAL in the
    place of the sign both give what is expected of the rupee. *)
Theorem rupee_amount_currency :
  normalize_amount (txt "(1,200.00)") = Some (- 1200 # 1)%Q /\
  amounts_of RUPEE_AMOUNT = [txt "3,450"] /\
  normalize_amount (txt "3,450") = Some (3450 # 1)%Q /\
  detect_currency RUPEE_AMOUNT = "Unknown"%string /\
  normalize_amount RUPEE_AMOUNT = None /\
  detect_currency (RUPEE_LITERAL ++ txt " 3,450") = "INR"%string /\
  normalize_amount (RUPEE_LITERAL ++ txt " 3,450") = Some (3450 # 1)%Q.
Proof.
  repeat split; vm_compute; reflexivity.
Qed.

(** ** Currency resolution *)

Lemma startswith_app (p : str) :
  forall s, startswith p s = true -> exists rest, s = p ++ rest.
Proof.
  induction p as [| x p' IH]; intros s; simpl.
  - intros _. now exists s.
  - destruct s as [| y s']; [discriminate |].
    rewrite andb_true_iff, N.eqb_eq. intros [-> H].
    destruct (IH _ H) as [rest ->]. now exists rest.
Qed.

Lemma contains_infix (sub : str) :
  forall s, contains sub s = true -> infix sub s.
Proof.
  induction s as [| c s' IH]; simpl; rewrite orb_true_iff.
  - intros [H | H]; [| discriminate].
    apply startswith_app in H as [rest ->]. now exists [], rest.
  - intros [H | H].
    + apply startswith_app in H as [rest ->]. now exists [], rest.
    + destruct (IH H) as [pre [post ->]]. now exists (c :: pre), post.
Qed.

(** A literal with a non-ASCII character does not occur in ASCII text. *)
Lemma contains_ascii (sub s : str) :
  forallb is_ascii s = true -> forallb is_ascii sub = false ->
  contains sub s = false.
Proof.
  intros Hs Hsub. destruct (contains sub s) eqn:E; [| reflexivity].
  apply contains_infix in E as [pre [post ->]].
  rewrite !forallb_app, Hsub in Hs. simpl in Hs.
  rewrite andb_false_r in Hs. discriminate.
Qed.

(** C7, as stated, fails on the keyword of the dollar: [100 usd] resolves
    to USD, where the table of the four signs and the rupee keywords gives
    Unknown. *)
Lemma currency_table_spec_misses_usd :
  detect_currency (txt "100 usd") = "USD"%string /\
  currency_table_spec (txt "100 usd") = "Unknown"%string.
Proof. split; vm_compute; reflexivity. Qed.

(** C7, amended. A line with a rupee keyword ([inr], [rs.], [rs ] or
    [rupee], in any case) resolves to INR whatever else it holds; and on a
    line of ASCII characters the currency is read off the keyword table:
    the rupee keywords first, then [usd] or the dollar sign, then [eur],
    then [gbp], else Unknown. *)
Theorem detect_currency_keyword_table :
  forall text : str,
    (inr_keyword (lower text) = true -> detect_currency text = "INR"%string) /\
    (forallb is_ascii text = true -> detect_currency text = keyword_table text).
Proof.
  intros text. unfold detect_currency, keyword_table, inr_keyword. split.
  - intros ->. reflexivity.
  - intros Ha.
    rewrite (contains_ascii RUPEE_LITERAL text Ha eq_refl).
    rewrite (contains_ascii EURO_LITERAL text Ha eq_refl).
    rewrite (contains_ascii POUND_LITERAL text Ha eq_refl).
    rewrite !orb_false_r. reflexivity.
Qed.

Lemma detect_currency_keyword_table_witness :
  detect_currency (txt "Rs. 500 or $7") = "INR"%string /\
  detect_currency (txt "5 EUR") = keyword_table (txt "5 EUR").
Proof.
  split.
  - apply (proj1 (detect_currency_keyword_table (txt "Rs. 500 or $7"))).
    reflexivity.
  - apply (proj2 (detect_currency_keyword_table (txt "5 EUR"))).
    reflexivity.
Defined.

(** ** Categorization *)

Section FirstMatch.

Variable description : str.





End FirstMatch.



(** ** Column reconciliation *)

Lemma str_eqb_eq (a : str) : forall b, str_eqb a b = true <-> a = b.
Proof.
  induction a as [| x a' IH]; intros [| y b']; simpl; split;
    try discriminate; try reflexivity.
  - rewrite andb_true_iff, N.eqb_eq, IH. intros [-> ->]. reflexivity.
  - intros E. injection E as -> ->. rewrite N.eqb_refl. now apply IH.
Qed.

Section FindColumn.

Variable columns : list str.
Variable aliases : list str.

Lemma in_alias_set (c : str) :
  existsb (str_eqb (norm c)) (map norm aliases) = true <->
  In (norm c) (map norm aliases).
Proof.
  rewrite existsb_exists. split.
  - intros [a [Ha E]]. apply str_eqb_eq in E. now rewrite E.
  - intros H. exists (norm c). split; [exact H | now apply str_eqb_eq].
Qed.

Lemma find_column_some (c : str) :
  _find_column columns aliases = Some c ->
  In c columns /\ In (norm c) (map norm aliases).
Proof.
  unfold _find_column. intros H. apply find_some in H as [Hin E].
  split; [exact Hin | now apply in_alias_set].
Qed.

Lemma find_column_none :
  _find_column columns aliases = None ->
  forall c, In c columns -> ~ In (norm c) (map norm aliases).
Proof.
  unfold _find_column. intros H c Hin Hc.
  apply (find_none _ _ H) in Hin. apply in_alias_set in Hc.
  unfold norm in Hc. cbv beta in Hin. rewrite Hc in Hin. discriminate.
Qed.

(** No alias is blank, so the column found is never the empty string, and
    its truth value tells whether a column was found. *)
Hypothesis aliases_not_blank : forallb nonempty (map norm aliases) = true.

Lemma truthy_find_column :
  truthy (_find_column columns aliases) = true <->
  exists c, In c columns /\ In (norm c) (map norm aliases).
Proof.
  split.
  - destruct (_find_column columns aliases) as [c |] eqn:E; [| discriminate].
    intros _. exists c. now apply find_column_some.
  - intros [c [Hin Hc]].
    destruct (_find_column columns aliases) as [c' |] eqn:E.
    + apply find_column_some in E as [_ Hc'].
      destruct c' as [| x c'']; [| reflexivity].
      rewrite forallb_forall in aliases_not_blank.
      apply aliases_not_blank in Hc'. discriminate.
    + exfalso. exact (find_column_none E c Hin Hc).
Qed.

End FindColumn.

Lemma truthy_resolves (columns : list str) (key : string) :
  forallb nonempty (map (fun a => lower (strip a)) (aliases_for key)) = true ->
  (truthy (_find_column columns (aliases_for key)) = true <->
   resolves columns key).
Proof. intros H. now apply truthy_find_column. Qed.

Lemma not_truthy_resolves (columns : list str) (key : string) :
  forallb nonempty (map (fun a => lower (strip a)) (aliases_for key)) = true ->
  (truthy (_find_column columns (aliases_for key)) = false <->
   ~ resolves columns key).
Proof.
  intros H. rewrite <- (truthy_resolves columns key H).
  destruct (truthy _); split; congruence.
Qed.

(** Every alias of the debit column is an alias of the amount column. *)
Lemma debit_aliases_are_amount_aliases :
  incl (aliases_for "debit") (aliases_for "amount").
Proof.
  intros a Ha. simpl in Ha. simpl.
  repeat (destruct Ha as [<- | Ha]; [tauto |]). destruct Ha.
Qed.

Lemma debit_resolves_amount (columns : list str) :
  resolves columns "debit" -> resolves columns "amount".
Proof.
  intros [c [Hin Hc]]. exists c. split; [exact Hin |].
  apply in_map_iff in Hc as [a [E Ha]]. apply in_map_iff.
  exists a. split; [exact E |]. now apply debit_aliases_are_amount_aliases.
Qed.

Lemma unresolvable_bool (d s a c b : bool) :
  d = false \/ s = false \/ (a = false /\ ~ (c = true /\ b = true)) <->
  negb d || negb s || (negb a && negb (c && b)) = true.
Proof.
  destruct d; simpl; [| tauto].
  destruct s; simpl; [| tauto].
  destruct a; simpl; [split; [intros [H | [H | [H _]]]; discriminate | discriminate] |].
  destruct c; simpl; [| split; [reflexivity | intros _; right; right; split; [reflexivity | intros [H _]; discriminate]]].
  destruct b; simpl.
  - split; [intros [H | [H | [_ H]]]; try discriminate; exfalso; apply H; split; reflexivity | discriminate].
  - split; [reflexivity | intros _; right; right; split; [reflexivity | intros [_ H]; discriminate]].
Qed.

Lemma resolvable_bool (d s a c b : bool) :
  d = true /\ s = true /\ (a = true \/ (c = true /\ b = true)) <->
  negb d || negb s || (negb a && negb (c && b)) = false.
Proof.
  destruct d; simpl; [| split; [intros [H _] |]; discriminate].
  destruct s; simpl; [| split; [intros [_ [H _]] |]; discriminate].
  destruct a; simpl; [tauto |].
  destruct c; simpl; [| split; [intros [_ [_ [H | [H _]]]] |]; discriminate].
  destruct b; simpl; [tauto |].
  split; [intros [_ [_ [H | [_ H]]]] |]; discriminate.
Qed.

Section Reconciliation.

Variable cell : Type.
Variable to_datetime : cell -> option Z.
Variable to_numeric : cell -> option Q.
Variable astype_str : cell -> str.
Variable df : DataFrame cell.

Lemma found_resolves (key : string) :
  forallb nonempty (map (fun a => lower (strip a)) (aliases_for key)) = true ->
  (found df key = true <-> resolves (df_columns df) key) /\
  (found df key = false <-> ~ resolves (df_columns df) key).
Proof.
  intros H. split; [now apply truthy_resolves | now apply not_truthy_resolves].
Qed.

(** The outcome of [normalize_columns] in terms of the five lookups. *)
Lemma normalize_columns_outcome :
  (negb (found df "date") || negb (found df "description")
   || (negb (found df "amount") && negb (found df "credit" && found df "debit")) = true ->
   exists msg,
     normalize_columns to_datetime to_numeric astype_str df = Raise (ValueError msg)) /\
  (negb (found df "date") || negb (found df "description")
   || (negb (found df "amount") && negb (found df "credit" && found df "debit")) = false ->
   exists rows,
     normalize_columns to_datetime to_numeric astype_str df = Ok rows).
Proof.
  unfold normalize_columns, amount_source_of, found.
  destruct (truthy (_find_column (df_columns df) (aliases_for "date")));
  destruct (truthy (_find_column (df_columns df) (aliases_for "description")));
  destruct (truthy (_find_column (df_columns df) (aliases_for "amount")));
  destruct (truthy (_find_column (df_columns df) (aliases_for "credit")));
  destruct (truthy (_find_column (df_columns df) (aliases_for "debit")));
  simpl; split; intros H; try discriminate H; eexists; reflexivity.
Qed.

Lemma unresolvable_found :
  unresolvable (df_columns df) <->
  negb (found df "date") || negb (found df "description")
  || (negb (found df "amount") && negb (found df "credit" && found df "debit")) = true.
Proof.
  unfold unresolvable.
  rewrite <- (proj2 (found_resolves "date" eq_refl)).
  rewrite <- (proj2 (found_resolves "description" eq_refl)).
  rewrite <- (proj2 (found_resolves "amount" eq_refl)).
  rewrite <- (proj1 (found_resolves "credit" eq_refl)).
  rewrite <- (proj1 (found_resolves "debit" eq_refl)).
  apply unresolvable_bool.
Qed.

Lemma resolvable_found :
  resolves (df_columns df) "date" /\ resolves (df_columns df) "description" /\
  (resolves (df_columns df) "amount" \/
   (resolves (df_columns df) "credit" /\ resolves (df_columns df) "debit")) <->
  negb (found df "date") || negb (found df "description")
  || (negb (found df "amount") && negb (found df "credit" && found df "debit")) = false.
Proof.
  rewrite <- (proj1 (found_resolves "date" eq_refl)).
  rewrite <- (proj1 (found_resolves "description" eq_refl)).
  rewrite <- (proj1 (found_resolves "amount" eq_refl)).
  rewrite <- (proj1 (found_resolves "credit" eq_refl)).
  rewrite <- (proj1 (found_resolves "debit" eq_refl)).
  apply resolvable_bool.
Qed.

End Reconciliation.

(** C9. [normalize_columns] raises its validation error, a [ValueError],
    exactly when the date or the description column cannot be resolved, or
    neither a direct amount column nor the credit and debit pair can; and
    it returns the normalized rows exactly when these columns resolve. *)
Theorem normalize_columns_raises_iff :
  forall (cell : Type) (to_datetime : cell -> option Z)
         (to_numeric : cell -> option Q) (astype_str : cell -> str)
         (df : DataFrame cell),
    ((exists msg,
         normalize_columns to_datetime to_numeric astype_str df
         = Raise (ValueError msg)) <->
     unresolvable (df_columns df)) /\
    ((exists rows,
         normalize_columns to_datetime to_numeric astype_str df = Ok rows) <->
     resolves (df_columns df) "date" /\ resolves (df_columns df) "description" /\
     (resolves (df_columns df) "amount" \/
      (resolves (df_columns df) "credit" /\ resolves (df_columns df) "debit"))).
Proof.
  intros cell to_datetime to_numeric astype_str df.
  pose proof (normalize_columns_outcome cell to_datetime to_numeric astype_str df)
    as [Hraise Hok].
  rewrite (unresolvable_found cell df), (resolvable_found cell df).
  match goal with |- context [?b = true] => destruct b end.
  - destruct (Hraise eq_refl) as [msg Hm]. split; split; intros H.
    + reflexivity.
    + now exists msg.
    + destruct H as [rows Hr]. congruence.
    + discriminate.
  - destruct (Hok eq_refl) as [rows Hr]. split; split; intros H.
    + destruct H as [msg Hm]. congruence.
    + discriminate.
    + reflexivity.
    + now exists rows.
Qed.

Lemma normalize_columns_raises_iff_witness :
  resolves (df_columns DEBIT_CREDIT_TABLE) "date" /\
  resolves (df_columns DEBIT_CREDIT_TABLE) "description" /\
  (resolves (df_columns DEBIT_CREDIT_TABLE) "amount" \/
   (resolves (df_columns DEBIT_CREDIT_TABLE) "credit" /\
    resolves (df_columns DEBIT_CREDIT_TABLE) "debit")).
Proof.
  apply (proj1 (proj2 (normalize_columns_raises_iff sample_cell
                         as_date as_number as_text DEBIT_CREDIT_TABLE))).
  eexists. reflexivity.
Defined.

(** C10. The branch that computes the amount as credit minus debit is
    never taken: the aliases of the debit column are among those of the
    amount column, so a table with a debit column has a direct amount
    column, and whenever [normalize_columns] returns, the amounts are the
    numeric readings of that column. *)
Theorem credit_minus_debit_unreachable :
  forall (cell : Type) (to_datetime : cell -> option Z)
         (to_numeric : cell -> option Q) (astype_str : cell -> str)
         (df : DataFrame cell),
    let columns := df_columns df in
    let date_col := _find_column columns (aliases_for "date") in
    let description_col := _find_column columns (aliases_for "description") in
    let amount_col := _find_column columns (aliases_for "amount") in
    let credit_col := _find_column columns (aliases_for "credit") in
    let debit_col := _find_column columns (aliases_for "debit") in
    incl (aliases_for "debit") (aliases_for "amount") /\
    (truthy debit_col = true -> truthy amount_col = true) /\
    (forall c d,
        amount_source_of amount_col credit_col debit_col <> CreditMinusDebit c d) /\
    (forall rows,
        normalize_columns to_datetime to_numeric astype_str df = Ok rows ->
        truthy amount_col = true /\
        rows = dropna (map to_datetime (df_get df (the date_col)))
                 (map (fun c => strip (astype_str c))
                    (df_get df (the description_col)))
                 (map to_numeric (df_get df (the amount_col)))).
Proof.
  intros cell to_datetime to_numeric astype_str df
    columns date_col description_col amount_col credit_col debit_col.
  assert (Hdebit : truthy debit_col = true -> truthy amount_col = true).
  { intros H. apply (truthy_resolves columns "debit" eq_refl) in H.
    apply (truthy_resolves columns "amount" eq_refl).
    now apply debit_resolves_amount. }
  split; [exact debit_aliases_are_amount_aliases |].
  split; [exact Hdebit |]. split.
  - intros c d. unfold amount_source_of.
    destruct (truthy amount_col) eqn:Ea; [discriminate |].
    destruct (truthy credit_col); simpl; [| discriminate].
    destruct (truthy debit_col); [| discriminate].
    specialize (Hdebit eq_refl). discriminate.
  - intros rows. unfold normalize_columns, amount_source_of.
    fold columns. fold date_col. fold description_col. fold amount_col.
    fold credit_col. fold debit_col.
    destruct (truthy date_col); simpl; [| discriminate].
    destruct (truthy description_col); simpl; [| discriminate].
    destruct (truthy amount_col) eqn:Ea; simpl.
    + intros E. injection E as <-. split; reflexivity.
    + destruct (truthy credit_col); simpl; [| discriminate].
      destruct (truthy debit_col); simpl; [| discriminate].
      specialize (Hdebit eq_refl). discriminate.
Qed.

Lemma credit_minus_debit_unreachable_witness :
  truthy (_find_column (df_columns DEBIT_CREDIT_TABLE) (aliases_for "amount"))
  = true.
Proof.
  apply (proj1 (proj2 (credit_minus_debit_unreachable sample_cell
                         as_date as_number as_text DEBIT_CREDIT_TABLE))).
  reflexivity.
Defined.

(** C5. The table with the headers Txn Date, Narration, Debit and Credit
    normalizes without error, but its amounts are those of the Debit
    column, not credit minus debit: the withdrawal of 100 is kept as +100
    and the deposit, whose debit cell is blank, is dropped.  Credit minus
    debit on the same table would give -100 and 2500. *)
Theorem debit_credit_table_amounts :
  amount_source_of
    (_find_column (df_columns DEBIT_CREDIT_TABLE) (aliases_for "amount"))
    (_find_column (df_columns DEBIT_CREDIT_TABLE) (aliases_for "credit"))
    (_find_column (df_columns DEBIT_CREDIT_TABLE) (aliases_for "debit"))
  = Direct (txt "Debit") /\
  normalize_columns as_date as_number as_text DEBIT_CREDIT_TABLE
  = Ok [ {| Date := 1; Description := txt "ATM withdrawal";
            Amount := 100 # 1 |} ] /\
  amount_series as_number DEBIT_CREDIT_TABLE
    (CreditMinusDebit (txt "Credit") (txt "Debit"))
  = Some [Some (- 100 # 1)%Q; Some (2500 # 1)%Q].
Proof.
  repeat split; vm_compute; reflexivity.
Qed.

(** ** Aggregation *)

Section Sorting.

Variable A : Type.
Variable le : A -> A -> bool.

Lemma insert_by_perm (x : A) (l : list A) : Permutation (insert_by le x l) (x :: l).
Proof.
  induction l as [| y l' IH]; simpl; [reflexivity |].
  destruct (le x y); [reflexivity |].
  rewrite IH. apply perm_swap.
Qed.

Lemma sort_by_perm (l : list A) : Permutation (sort_by le l) l.
Proof.
  induction l as [| x l' IH]; simpl; [reflexivity |].
  fold (sort_by le l'). rewrite insert_by_perm. now apply perm_skip.
Qed.

Hypothesis le_total : forall a b, le a b = true \/ le b a = true.
Hypothesis le_trans : forall a b c, le a b = true -> le b c = true -> le a c = true.

Lemma insert_by_sorted (x : A) (l : list A) :
  StronglySorted (ordered_by le) l ->
  StronglySorted (ordered_by le) (insert_by le x l).
Proof.
  induction 1 as [| y l' Hs IH Hy]; simpl.
  - constructor; constructor.
  - destruct (le x y) eqn:E.
    + constructor; [now constructor |].
      constructor; [exact E |].
      eapply Forall_impl; [| exact Hy]. intros z Hz. unfold ordered_by in *. eauto.
    + constructor; [exact IH |].
      apply (Permutation_Forall (Permutation_sym (insert_by_perm x l'))).
      constructor; [| exact Hy].
      destruct (le_total x y) as [H | H]; [congruence | exact H].
Qed.

Lemma sort_by_sorted (l : list A) :
  StronglySorted (ordered_by le) (sort_by le l).
Proof.
  induction l as [| x l' IH]; simpl; [constructor |].
  now apply insert_by_sorted.
Qed.

End Sorting.

Lemma StronglySorted_impl {A : Type} (R S : A -> A -> Prop) (l : list A) :
  (forall a b, R a b -> S a b) -> StronglySorted R l -> StronglySorted S l.
Proof.
  intros H. induction 1 as [| x l' Hs IH Hx]; constructor; auto.
  eapply Forall_impl; [| exact Hx]. auto.
Qed.

Lemma StronglySorted_map {A B : Type} (f : A -> B) (R : B -> B -> Prop)
    (l : list A) :
  StronglySorted (fun a b => R (f a) (f b)) l -> StronglySorted R (map f l).
Proof.
  induction 1 as [| x l' Hs IH Hx]; simpl; constructor; auto.
  rewrite Forall_map. exact Hx.
Qed.

Lemma qsum_app (l1 l2 : list Q) : (qsum (l1 ++ l2) == qsum l1 + qsum l2)%Q.
Proof.
  induction l1 as [| x l1' IH]; simpl.
  - now rewrite Qplus_0_l.
  - rewrite IH. apply Qplus_assoc.
Qed.

Section Grouping.

Variable K : Type.
Variable eqb : K -> K -> bool.
Hypothesis eqb_eq : forall a b, eqb a b = true <-> a = b.

Lemma eqb_refl (k : K) : eqb k k = true.
Proof. now apply eqb_eq. Qed.

Lemma total_snoc (k key : K) (v : Q) (rows : list (K * Q)) :
  (total eqb k (rows ++ [(key, v)])
   == total eqb k rows + (if eqb key k then v else 0))%Q.
Proof.
  unfold total. rewrite filter_app, map_app, qsum_app. simpl.
  destruct (eqb key k); simpl; [now rewrite Qplus_0_r | reflexivity].
Qed.

Lemma total_absent (k : K) (rows : list (K * Q)) :
  ~ In k (map fst rows) -> total eqb k rows = 0%Q.
Proof.
  unfold total. induction rows as [| [k0 v0] rows' IH]; simpl; [reflexivity |].
  intros H. destruct (eqb k0 k) eqn:E.
  - apply eqb_eq in E. subst k0. exfalso. apply H. now left.
  - apply IH. intros Hin. apply H. now right.
Qed.

Lemma add_spend_keys (key : K) (v : Q) (acc : list (K * Q)) (k : K) :
  In k (map fst (add_spend eqb key v acc)) <-> k = key \/ In k (map fst acc).
Proof.
  induction acc as [| [k0 t0] acc' IH]; simpl.
  - intuition.
  - destruct (eqb k0 key) eqn:E; simpl.
    + apply eqb_eq in E. subst k0. intuition.
    + rewrite IH. intuition.
Qed.

Lemma add_spend_nodup (key : K) (v : Q) (acc : list (K * Q)) :
  NoDup (map fst acc) -> NoDup (map fst (add_spend eqb key v acc)).
Proof.
  induction acc as [| [k0 t0] acc' IH]; simpl; intros Hn.
  - constructor; [intros [] | constructor].
  - inversion Hn as [| ? ? Hnotin Hn']; subst.
    destruct (eqb k0 key) eqn:E; simpl.
    + now constructor.
    + constructor; [| now apply IH].
      rewrite add_spend_keys. intros [-> | H]; [| contradiction].
      rewrite eqb_refl in E. discriminate.
Qed.

Lemma assoc_add_spend (key : K) (v : Q) (acc : list (K * Q)) (k : K) :
  assoc eqb k (add_spend eqb key v acc) =
  if eqb key k
  then Some (match assoc eqb key acc with
             | Some t => (t + v)%Q
             | None => v
             end)
  else assoc eqb k acc.
Proof.
  induction acc as [| [k0 t0] acc' IH]; simpl; [reflexivity |].
  destruct (eqb k0 key) eqn:E; simpl.
  - apply eqb_eq in E. subst k0. now destruct (eqb key k).
  - rewrite IH. destruct (eqb k0 k) eqn:E0; [| reflexivity].
    apply eqb_eq in E0. subst k0.
    destruct (eqb key k) eqn:E1; [| reflexivity].
    apply eqb_eq in E1. subst k. rewrite eqb_refl in E. discriminate.
Qed.

Lemma assoc_none (k : K) (l : list (K * Q)) :
  assoc eqb k l = None -> ~ In k (map fst l).
Proof.
  induction l as [| [k0 t0] l' IH]; simpl; [tauto |].
  destruct (eqb k0 k) eqn:E; [discriminate |].
  intros H [-> | Hin]; [rewrite eqb_refl in E; discriminate | now apply IH].
Qed.

Lemma In_assoc (k : K) (t : Q) (l : list (K * Q)) :
  NoDup (map fst l) -> In (k, t) l -> assoc eqb k l = Some t.
Proof.
  induction l as [| [k0 t0] l' IH]; simpl; [tauto |].
  intros Hn [E | Hin]; inversion Hn as [| ? ? Hnotin Hn']; subst.
  - injection E as -> ->. now rewrite eqb_refl.
  - destruct (eqb k0 k) eqn:E0; [| now apply IH].
    apply eqb_eq in E0. subst k0. exfalso. apply Hnotin.
    apply in_map_iff. now exists (k, t).
Qed.

Lemma grouped_step (acc done : list (K * Q)) (key : K) (v : Q) :
  grouped eqb acc done ->
  grouped eqb (add_spend eqb key v acc) (done ++ [(key, v)]).
Proof.
  intros [Hn [Hk Ht]]. split; [now apply add_spend_nodup |]. split.
  - intros k. rewrite add_spend_keys, map_app, in_app_iff, Hk. simpl.
    intuition.
  - intros k t. rewrite assoc_add_spend, total_snoc.
    destruct (eqb key k) eqn:E.
    + apply eqb_eq in E. subst k.
      destruct (assoc eqb key acc) as [t0 |] eqn:Ea; intros H; injection H as <-.
      * now rewrite (Ht key t0 Ea).
      * apply assoc_none in Ea. rewrite Hk in Ea.
        rewrite (total_absent key done Ea). now rewrite Qplus_0_l.
    + intros H. rewrite (Ht k t H). now rewrite Qplus_0_r.
Qed.

Lemma fold_grouped (rows : list (K * Q)) :
  forall acc done,
    grouped eqb acc done ->
    grouped eqb (fold_left (fun a r => add_spend eqb (fst r) (snd r) a) rows acc)
      (done ++ rows).
Proof.
  induction rows as [| [key v] rows' IH]; intros acc done H; simpl.
  - now rewrite app_nil_r.
  - replace (done ++ (key, v) :: rows') with ((done ++ [(key, v)]) ++ rows')
      by now rewrite <- app_assoc.
    apply IH. now apply grouped_step.
Qed.

Lemma group_sum_grouped (rows : list (K * Q)) :
  grouped eqb (group_sum eqb rows) rows.
Proof.
  apply (fold_grouped rows [] []). split; [constructor |].
  split; [tauto | discriminate].
Qed.

End Grouping.

Lemma is_expense_lt (r : Labelled) :
  is_expense r = true <-> (Amount (txn r) < 0)%Q.
Proof.
  unfold is_expense. rewrite Qlt_alt.
  destruct (Qcompare (Amount (txn r)) 0); split; congruence.
Qed.

Lemma by_spend_desc_total {K : Type} (a b : K * Q) :
  by_spend_desc a b = true \/ by_spend_desc b a = true.
Proof.
  unfold by_spend_desc. rewrite !Qle_bool_iff.
  destruct (Qlt_le_dec (snd a) (snd b)) as [H | H]; [right | left]; auto.
  now apply Qlt_le_weak.
Qed.

Lemma by_spend_desc_trans {K : Type} (a b c : K * Q) :
  by_spend_desc a b = true -> by_spend_desc b c = true ->
  by_spend_desc a c = true.
Proof.
  unfold by_spend_desc. rewrite !Qle_bool_iff. intros H1 H2.
  now apply Qle_trans with (snd b).
Qed.

Lemma sort_by_descending {K : Type} (l : list (K * Q)) :
  descending (sort_by by_spend_desc l).
Proof.
  unfold descending.
  apply StronglySorted_impl with (R := ordered_by by_spend_desc).
  - intros a b. unfold ordered_by, by_spend_desc. now rewrite Qle_bool_iff.
  - apply sort_by_sorted.
    + apply by_spend_desc_total.
    + apply by_spend_desc_trans.
Qed.

Section Summary.

Variable K : Type.
Variable eqb : K -> K -> bool.
Hypothesis eqb_eq : forall a b, eqb a b = true <-> a = b.
Variable key_of : Labelled -> K.

Lemma total_spend_of (k : K) (rows : list Labelled) :
  total eqb k (map (fun r => (key_of r, Spend r)) (filter is_expense rows))
  = spend_of eqb key_of k rows.
Proof.
  unfold total, spend_of. generalize (filter is_expense rows). intros l.
  induction l as [| r l' IH]; [reflexivity |].
  cbn [map filter fst snd]. destruct (eqb (key_of r) k); [| exact IH].
  cbn [map qsum fold_right snd]. unfold qsum in IH. now rewrite IH.
Qed.

(** The sorted sums by key are a summary of the rows. *)
Lemma summary_summarises (rows : list Labelled) :
  summarises eqb key_of rows
    (sort_by by_spend_desc
       (group_sum eqb
          (map (fun r => (key_of r, Spend r)) (filter is_expense rows)))).
Proof.
  set (g := group_sum eqb _).
  destruct (group_sum_grouped K eqb eqb_eq
              (map (fun r => (key_of r, Spend r)) (filter is_expense rows)))
    as [Hn [Hk Ht]].
  fold g in Hn, Hk, Ht.
  pose proof (sort_by_perm _ by_spend_desc g) as P.
  split; [| split].
  - apply (Permutation_NoDup (Permutation_map fst (Permutation_sym P))).
    exact Hn.
  - intros k.
    assert (Hs : In k (map fst (sort_by by_spend_desc g)) <-> In k (map fst g)).
    { split; apply Permutation_in; apply Permutation_map;
        [exact P | exact (Permutation_sym P)]. }
    rewrite Hs, Hk, map_map. cbn [fst]. rewrite in_map_iff. split.
    + intros [r [E Hin]]. apply filter_In in Hin as [Hin He].
      exists r. repeat split; [exact Hin | now apply is_expense_lt | exact E].
    + intros [r [Hin [Hlt E]]]. exists r. split; [exact E |].
      apply filter_In. split; [exact Hin | now apply is_expense_lt].
  - intros k t Hin. apply (Permutation_in _ P) in Hin.
    apply (In_assoc K eqb eqb_eq k t g Hn) in Hin.
    rewrite (Ht k t Hin), total_spend_of. reflexivity.
Qed.

End Summary.

Lemma pair_eqb_eq (a b : string * string) : pair_eqb a b = true <-> a = b.
Proof.
  destruct a as [a1 a2], b as [b1 b2]. unfold pair_eqb. simpl.
  rewrite andb_true_iff, !String.eqb_eq. split.
  - intros [-> ->]. reflexivity.
  - intros E. injection E as -> ->. split; reflexivity.
Qed.

(** C8. [analyze_statement] returns the transactions sorted by date in
    ascending order, each with the labels [categorize] gives its
    description, and the two summaries of spend, where only a row with a
    negative amount counts and counts for the absolute value of its
    amount: one total per pair of category and necessity, and one total per
    necessity, each summary in descending order of total. *)
Theorem analyze_statement_contract :
  forall df : list Transaction,
    let sorted_df := fst (fst (analyze_statement df)) in
    let summary_by_category := snd (fst (analyze_statement df)) in
    let summary_by_need := snd (analyze_statement df) in
    Permutation (map txn sorted_df) df /\
    StronglySorted by_date sorted_df /\
    (forall r, In r sorted_df ->
       (Category r, Necessity r) = categorize (Description (txn r))) /\
    (forall r, Spend r = Qabs (Amount (txn r))) /\
    summarises pair_eqb (fun r => (Category r, Necessity r)) sorted_df
      summary_by_category /\
    summarises String.eqb Necessity sorted_df summary_by_need /\
    descending summary_by_category /\
    descending summary_by_need.
Proof.
  intros df. unfold analyze_statement. cbn [fst snd].
  set (sorted := sort_by (fun a b => Z.leb (Date a) (Date b)) df).
  split; [| split; [| split; [| split; [| split; [| split; [| split]]]]]].
  - rewrite map_map. cbn [label txn]. rewrite map_id. apply sort_by_perm.
  - apply StronglySorted_map. unfold by_date. cbn [label txn].
    apply StronglySorted_impl
      with (R := ordered_by (fun a b : Transaction => Z.leb (Date a) (Date b))).
    + intros a b. unfold ordered_by. apply Z.leb_le.
    + apply sort_by_sorted.
      * intros a b. rewrite !Z.leb_le. lia.
      * intros a b c. rewrite !Z.leb_le. lia.
  - intros r Hr. apply in_map_iff in Hr as [t [<- _]].
    cbn [label txn Category Necessity].
    now destruct (categorize (Description t)).
  - reflexivity.
  - apply (summary_summarises _ pair_eqb pair_eqb_eq).
  - apply (summary_summarises _ String.eqb String.eqb_eq).
  - apply sort_by_descending.
  - apply sort_by_descending.
Qed.

(** * Further properties of the code *)

(** ** Years *)

Lemma repeat_In {A : Type} (x y : A) (n : nat) : In y (repeat x n) -> y = x.
Proof. induction n as [| n IH]; simpl; [tauto | intros [<- | H]; auto]. Qed.

Lemma last_In {A : Type} (l : list A) (d : A) : l <> [] -> In (last l d) l.
Proof.
  induction l as [| x l' IH]; [congruence |]. intros _.
  destruct l' as [| y l'']; [now left |].
  right. apply IH. discriminate.
Qed.

Lemma skipn_In {A : Type} (n : nat) (l : list A) (x : A) :
  In x (skipn n l) -> In x l.
Proof.
  intros H. rewrite <- (firstn_skipn n l). apply in_or_app. now right.
Qed.

Lemma assign_years_from (years : list Z) (amount_count : nat) :
  Forall (fun e => match e with
                   | Some y => In y years
                   | None => years = []
                   end)
    (assign_years_to_amounts years amount_count).
Proof.
  apply Forall_forall. intros e. unfold assign_years_to_amounts.
  destruct (Nat.eqb amount_count 0); [intros [] |].
  destruct years as [| y ys] eqn:Ey.
  - intros H. apply repeat_In in H. now subst e.
  - rewrite <- Ey.
    assert (Hne : years <> []) by (rewrite Ey; discriminate).
    destruct (Nat.eqb (List.length years) amount_count).
    { intros H. apply in_map_iff in H as [z [<- Hz]]. exact Hz. }
    destruct (Nat.eqb (List.length years) 1).
    { intros H. apply repeat_In in H. subst e. rewrite Ey. now left. }
    destruct (Nat.ltb amount_count (List.length years)).
    { intros H. apply in_map_iff in H as [z [<- Hz]].
      now apply skipn_In in Hz. }
    intros H. apply repeat_In in H. subst e. now apply last_In.
Qed.

(** X1. The alignment returns exactly one entry per amount, so the bound
    test of the caller never fails; an entry is unset only when the line
    has no year, and a set entry is one of the years of the line. *)
Theorem assign_years_entries :
  forall (years : list Z) (amount_count : nat),
    List.length (assign_years_to_amounts years amount_count) = amount_count /\
    Forall (fun e => match e with
                     | Some y => In y years
                     | None => years = []
                     end)
      (assign_years_to_amounts years amount_count).
Proof.
  intros years n. split;
    [apply assign_years_length | apply assign_years_from].
Qed.

Section Spanning.

Variable ic : bool.

Lemma one_spans (f : char -> bool) (s : str) (p : cursor) :
  In p (one f s) -> exists x, s = x :: snd p /\ f x = true.
Proof.
  destruct s as [| c s']; simpl; [intros [] |].
  destruct (f c) eqn:E; simpl; [| intros []].
  intros [<- | []]. now exists c.
Qed.

Lemma many_spans (f : char -> bool) :
  forall (s : str) (prev : option char) (p : cursor),
    In p (many f prev s) ->
    exists pre, s = pre ++ snd p /\ forallb f pre = true.
Proof.
  induction s as [| c s' IH]; intros prev p; simpl.
  - intros [<- | []]. now exists [].
  - destruct (f c) eqn:E.
    + rewrite in_app_iff. intros [H | [<- | []]].
      * destruct (IH _ _ H) as [pre [-> Hf]]. exists (c :: pre).
        simpl. now rewrite E, Hf.
      * now exists [].
    + intros [<- | []]. now exists [].
Qed.

(** Where [run] reports that a match can end, the text before that end is
    spanned by the pattern. *)
Lemma run_spans (r : regex) :
  forall (prev : option char) (s : str) (p : cursor),
    In p (run ic r prev s) ->
    exists pre, s = pre ++ snd p /\ spans ic r pre.
Proof.
  induction r as [| c | f | | r1 IH1 r2 IH2 | r1 IH1 r2 IH2 | r1 IH1 | f | f];
    intros prev s p; simpl.
  - intros [<- | []]. now exists [].
  - intros H. apply one_spans in H as [x [-> Hx]]. exists [x]. eauto.
  - intros H. apply one_spans in H as [x [-> Hx]]. exists [x]. eauto.
  - destruct (xorb _ _); simpl; [| intros []]. intros [<- | []]. now exists [].
  - rewrite in_flat_map. intros [q [Hq Hp]].
    destruct (IH1 _ _ _ Hq) as [pre1 [-> H1]].
    destruct (IH2 _ _ _ Hp) as [pre2 [E2 H2]].
    exists (pre1 ++ pre2). split; [rewrite E2 at 1; now rewrite app_assoc |].
    now exists pre1, pre2.
  - rewrite in_app_iff. intros [H | H].
    + destruct (IH1 _ _ _ H) as [pre [E Hs]]. exists pre. auto.
    + destruct (IH2 _ _ _ H) as [pre [E Hs]]. exists pre. auto.
  - rewrite in_app_iff. intros [H | [<- | []]].
    + destruct (IH1 _ _ _ H) as [pre [E Hs]]. exists pre. auto.
    + exists []. auto.
  - apply many_spans.
  - rewrite in_flat_map. intros [q [Hq Hp]].
    apply one_spans in Hq as [x [-> Hx]].
    apply many_spans in Hp as [pre [E Hf]]. exists (x :: pre).
    split; [simpl; now rewrite E at 1 |].
    split; [discriminate | simpl; now rewrite Hx, Hf].
Qed.

(** Every string returned by [findall] is spanned by the pattern. *)
Lemma findall_from_spans (r : regex) :
  forall (fuel : nat) (prev : option char) (s m : str),
    In m (findall_from fuel ic r prev s) -> spans ic r m.
Proof.
  induction fuel as [| k IH]; intros prev s m; simpl; [intros [] |].
  destruct (run ic r prev s) as [| [prev' rest] l] eqn:E.
  - destruct s as [| c s']; [intros [] |]. eauto.
  - assert (Hs : exists pre, s = pre ++ rest /\ spans ic r pre).
    { apply (run_spans r prev s (prev', rest)). rewrite E. now left. }
    destruct Hs as [pre [-> Hpre]]. rewrite firstn_prefix.
    destruct pre as [| x pre'].
    + simpl. destruct rest as [| c s'].
      * intros [<- | []]. exact Hpre.
      * intros [<- | H]; [exact Hpre | eauto].
    + intros [<- | H]; [exact Hpre | eauto].
Qed.

End Spanning.

(** A decimal digit lies in one of the runs of ten, at the place of its
    value. *)
Lemma isdigit_run (c : char) :
  isdigit c = true ->
  exists z, In z DIGIT_ZEROS /\ z <= c <= z + 9 /\
            digit_value c = Z.of_N (c - z).
Proof.
  unfold isdigit, digit_value. rewrite existsb_exists. intros [z0 [Hin0 Hb0]].
  destruct (find (fun z => between z (z + 9) c) DIGIT_ZEROS) as [z |] eqn:E.
  - apply find_some in E as [Hin Hb]. exists z.
    unfold between in Hb. rewrite andb_true_iff, !N.leb_le in Hb. auto.
  - apply (find_none _ _ E) in Hin0. congruence.
Qed.

Lemma isdigit_value (c : char) :
  isdigit c = true -> (0 <= digit_value c <= 9)%Z.
Proof.
  intros H. apply isdigit_run in H as [z [_ [Hz ->]]]. lia.
Qed.

Ltac open_spans :=
  repeat match goal with
         | H : exists _, _ |- _ => destruct H
         | H : _ /\ _ |- _ => destruct H
         end.

Lemma year_token_value (m : str) :
  spans false YEAR_PATTERN m -> plausible_year (int m).
Proof.
  unfold plausible_year. cbn -[isdigit digit_value lit_matches].
  intros H. open_spans.
  match goal with H : _ \/ _ |- _ => destruct H end; open_spans; subst;
    repeat match goal with
           | H : lit_matches false _ _ = true |- _ =>
               apply N.eqb_eq in H; subst
           | H : isdigit _ = true |- _ => apply isdigit_value in H
           end;
    rewrite app_nil_r; unfold int, digits_value; cbn [fold_left app];
    change (digit_value 48) with 0%Z; change (digit_value 49) with 1%Z;
    change (digit_value 50) with 2%Z; change (digit_value 57) with 9%Z; lia.
Qed.

(** X2. Every year read from a line lies between 1900 and 2099, and so does
    the year of every fact that has one. *)
Theorem years_are_plausible :
  forall (source : str) (page_number : nat) (line : str),
    Forall plausible_year (extract_years line) /\
    Forall (fun f => match year f with
                     | Some y => In y (extract_years line) /\ plausible_year y
                     | None => True
                     end)
      (extract_line source page_number line).
Proof.
  intros source page_number line.
  assert (Hy : Forall plausible_year (extract_years line)).
  { apply Forall_forall. intros y Hin. unfold extract_years in Hin.
    apply in_map_iff in Hin as [m [<- Hm]]. apply year_token_value.
    unfold findall in Hm. eapply findall_from_spans; eauto. }
  split; [exact Hy |]. rewrite Forall_forall in Hy.
  apply Forall_forall. intros f Hf. unfold extract_line in Hf.
  apply in_flat_map in Hf as [[name aliases] [_ Hf]].
  destruct (existsb _ aliases); [| destruct Hf].
  unfold metric_facts in Hf. apply in_flat_map in Hf as [[idx amount] [_ Hf]].
  destruct (normalize_amount amount); [| destruct Hf].
  destruct Hf as [<- | []]. cbn [year].
  pose proof (assign_years_from (extract_years line)
                (List.length (amounts_of line))) as He.
  rewrite Forall_forall in He.
  destruct (Nat.ltb_spec idx
    (List.length (assign_years_to_amounts (extract_years line)
                    (List.length (amounts_of line))))) as [Hlt | Hge];
    [| exact I].
  specialize (He _ (nth_In _ None Hlt)).
  destruct (nth idx _ None) as [y |]; [| exact I]. auto.
Qed.

(** ** Facts and the page they come from *)

Lemma dropwhile_suffix (f : char -> bool) (s : str) :
  exists pre, s = pre ++ dropwhile f s.
Proof.
  induction s as [| c s' [pre IH]]; simpl; [now exists [] |].
  destruct (f c); [| now exists []].
  exists (c :: pre). simpl. now rewrite <- IH.
Qed.

Lemma dropwhile_length (f : char -> bool) (s : str) :
  (List.length (dropwhile f s) <= List.length s)%nat.
Proof.
  destruct (dropwhile_suffix f s) as [pre E]. rewrite E at 2.
  rewrite length_app. lia.
Qed.

Lemma dropwhile_idem (f : char -> bool) (s : str) :
  dropwhile f (dropwhile f s) = dropwhile f s.
Proof.
  induction s as [| c s' IH]; simpl; [reflexivity |].
  destruct (f c) eqn:E; [exact IH |]. simpl. now rewrite E.
Qed.

Lemma dropwhile_fixed_prefix (f : char -> bool) (r w : str) :
  dropwhile f (r ++ w) = r ++ w -> r <> [] -> dropwhile f r = r.
Proof.
  destruct r as [| x r']; [congruence |]. intros H _. simpl in *.
  destruct (f x); [| reflexivity].
  pose proof (dropwhile_length f (r' ++ w)) as Hl. rewrite H in Hl.
  simpl in Hl. lia.
Qed.

Lemma strip_with_infix (f : char -> bool) (s : str) :
  infix (strip_with f s) s.
Proof.
  unfold strip_with.
  destruct (dropwhile_suffix f s) as [pre E].
  destruct (dropwhile_suffix f (rev (dropwhile f s))) as [pre' E'].
  exists pre, (rev pre'). rewrite E at 1. f_equal.
  rewrite <- (rev_involutive (dropwhile f s)), E' at 1.
  now rewrite rev_app_distr.
Qed.

Lemma strip_with_idem (f : char -> bool) (s : str) :
  strip_with f (strip_with f s) = strip_with f s.
Proof.
  unfold strip_with.
  set (t := dropwhile f s). set (u := dropwhile f (rev t)).
  assert (Hr : dropwhile f (rev u) = rev u).
  { destruct (dropwhile_suffix f (rev t)) as [pre E]. fold u in E.
    assert (Et : t = rev u ++ rev pre).
    { rewrite <- (rev_involutive t), E. now rewrite rev_app_distr. }
    destruct (rev u) as [| x r'] eqn:Eu; [reflexivity |].
    apply (dropwhile_fixed_prefix f (x :: r') (rev pre)); [| discriminate].
    rewrite <- Et. apply dropwhile_idem. }
  rewrite Hr, rev_involutive. unfold u. now rewrite dropwhile_idem.
Qed.

Lemma infix_trans (a b c : str) : infix a b -> infix b c -> infix a c.
Proof.
  intros [p1 [q1 ->]] [p2 [q2 ->]]. exists (p2 ++ p1), (q1 ++ q2).
  now rewrite <- !app_assoc.
Qed.

(** After a line break the scan resumes on the rest of the text, or one
    character further when the break is a carriage return and a line feed. *)
Lemma splitlines_after_break (c : char) (s' cur : str) :
  islinebreak c = true ->
  splitlines_from cur (c :: s') = rev cur :: splitlines_from [] s' \/
  exists s'', s' = 10 :: s'' /\
    splitlines_from cur (c :: s') = rev cur :: splitlines_from [] s''.
Proof.
  intros Hc. simpl. rewrite Hc.
  destruct s' as [| d s'']; [now left |].
  destruct (N.eq_dec d 10) as [-> | Hd].
  - destruct (c =? 13); [right; now exists s'' | now left].
  - left. destruct d as [| p]; [reflexivity |].
    destruct p as [p | p |]; try reflexivity.
    destruct p as [p | p |]; try reflexivity.
    destruct p as [p | p |]; try reflexivity.
    destruct p as [p | p |]; try reflexivity.
    now contradiction Hd.
Qed.

Lemma infix_refl (s : str) : infix s s.
Proof. exists [], []. simpl. now rewrite app_nil_r. Qed.

Lemma splitlines_from_infix :
  forall (n : nat) (s cur l : str),
    (List.length s <= n)%nat ->
    In l (splitlines_from cur s) -> infix l (rev cur ++ s).
Proof.
  induction n as [| n IH]; intros s cur l Hn.
  - destruct s; [| simpl in Hn; lia]. simpl.
    destruct (nonempty cur); [| intros []].
    intros [<- | []]. rewrite app_nil_r. apply infix_refl.
  - destruct s as [| c s'].
    + simpl. destruct (nonempty cur); [| intros []].
      intros [<- | []]. rewrite app_nil_r. apply infix_refl.
    + simpl in Hn. destruct (islinebreak c) eqn:Hc.
      * destruct (splitlines_after_break c s' cur Hc) as [E | [s'' [-> E]]];
          rewrite E; (intros [<- | H]; [apply infix_prefix |]);
          apply infix_app; apply infix_cons.
        -- apply (IH s' [] l); [lia | exact H].
        -- apply infix_cons. apply (IH s'' [] l); [simpl in Hn; lia | exact H].
      * simpl. rewrite Hc. intros H. apply (IH s' (c :: cur) l) in H; [| lia].
        simpl in H. now rewrite <- app_assoc in H.
Qed.

Lemma splitlines_infix (text l : str) : In l (splitlines text) -> infix l text.
Proof.
  intros H. apply (splitlines_from_infix (List.length text) text [] l);
    [lia | exact H].
Qed.

Lemma forallb_rev (f : char -> bool) (s : str) :
  forallb f (rev s) = forallb f s.
Proof.
  induction s as [| c s' IH]; simpl; [reflexivity |].
  rewrite forallb_app, IH. simpl. rewrite andb_true_r. apply andb_comm.
Qed.

(** Every string of [splitlines] is a line of the text.  [done] is the
    text before the line being read, [cur] that line so far, last
    character first. *)
Lemma splitlines_from_lines :
  forall (n : nat) (s cur done l : str),
    (List.length s <= n)%nat ->
    forallb (fun c => negb (islinebreak c)) cur = true ->
    (done = [] \/ exists pre' b, done = pre' ++ [b] /\ islinebreak b = true) ->
    In l (splitlines_from cur s) -> line_of l (done ++ rev cur ++ s).
Proof.
  induction n as [| n IH]; intros s cur done l Hn Hcur Hdone.
  - destruct s; [| simpl in Hn; lia]. simpl.
    destruct (nonempty cur); [| intros []].
    intros [<- | []]. exists done, []. rewrite forallb_rev. auto.
  - destruct s as [| c s'].
    + simpl. destruct (nonempty cur); [| intros []].
      intros [<- | []]. exists done, []. rewrite forallb_rev. auto.
    + simpl in Hn. destruct (islinebreak c) eqn:Hc.
      * assert (Hfirst : line_of (rev cur) (done ++ rev cur ++ c :: s')).
        { exists done, (c :: s'). rewrite forallb_rev.
          repeat split; auto. right. now exists c, s'. }
        destruct (splitlines_after_break c s' cur Hc) as [E | [s'' [-> E]]];
          rewrite E; (intros [<- | H]; [exact Hfirst |]).
        -- replace (done ++ rev cur ++ c :: s')
             with ((done ++ rev cur ++ [c]) ++ rev [] ++ s')
             by (simpl; now rewrite <- !app_assoc).
           apply (IH s' [] _ l); [lia | reflexivity | | exact H].
           right. exists (done ++ rev cur), c. split; [| exact Hc].
           now rewrite <- app_assoc.
        -- replace (done ++ rev cur ++ c :: 10 :: s'')
             with ((done ++ rev cur ++ [c; 10]) ++ rev [] ++ s'')
             by (simpl; now rewrite <- !app_assoc).
           apply (IH s'' [] _ l); [simpl in Hn; lia | reflexivity | | exact H].
           right. exists (done ++ rev cur ++ [c]), 10. split; [| reflexivity].
           now rewrite <- !app_assoc.
      * simpl. rewrite Hc. intros H.
        replace (done ++ rev cur ++ c :: s')
          with (done ++ rev (c :: cur) ++ s')
          by (simpl; now rewrite <- app_assoc).
        apply (IH s' (c :: cur) done l); [lia | | exact Hdone | exact H].
        simpl. now rewrite Hc, Hcur.
Qed.

Lemma splitlines_lines (text l : str) : In l (splitlines text) -> line_of l text.
Proof.
  intros H.
  apply (splitlines_from_lines (List.length text) text [] [] l);
    [lia | reflexivity | now left | exact H].
Qed.

Lemma page_lines_spec (text line : str) :
  In line (filter nonempty (map strip (splitlines text))) ->
  line <> [] /\ strip line = line /\ infix line text.
Proof.
  rewrite filter_In, in_map_iff. intros [[l [<- Hl]] Hne].
  split; [| split].
  - intros E. rewrite E in Hne. discriminate.
  - apply strip_with_idem.
  - apply infix_trans with l; [apply strip_with_infix |].
    now apply splitlines_infix.
Qed.

Lemma page_lines_origin (text line : str) :
  In line (filter nonempty (map strip (splitlines text))) ->
  exists l, line_of l text /\ line = strip l.
Proof.
  rewrite filter_In, in_map_iff. intros [[l [<- Hl]] _].
  exists l. split; [now apply splitlines_lines | reflexivity].
Qed.

Lemma detect_currency_closed (text : str) : In (detect_currency text) CURRENCIES.
Proof.
  unfold detect_currency, CURRENCIES.
  repeat match goal with
         | |- context [if ?b then _ else _] => destruct b
         end; simpl; tauto.
Qed.

Lemma metric_facts_fields (source : str) (page_number : nat) (line : str)
    (name : string) (f : FinancialMetric) :
  In f (metric_facts source page_number line name) ->
  source_file f = source /\ page f = page_number /\ context f = line /\
  metric f = name /\ currency f = detect_currency line.
Proof.
  unfold metric_facts. rewrite in_flat_map. intros [[idx amount] [_ Hf]].
  destruct (normalize_amount amount); [| destruct Hf].
  destruct Hf as [<- | []]. simpl. tauto.
Qed.

Lemma extract_line_fields (source : str) (page_number : nat) (line : str)
    (f : FinancialMetric) :
  In f (extract_line source page_number line) ->
  source_file f = source /\ page f = page_number /\ context f = line /\
  In (metric f) (map fst FINANCIAL_PATTERNS) /\
  currency f = detect_currency line.
Proof.
  unfold extract_line. rewrite in_flat_map. intros [[name aliases] [Hin Hf]].
  destruct (existsb _ aliases); [| destruct Hf].
  apply metric_facts_fields in Hf as [Hs [Hp [Hc [Hm Hcur]]]].
  repeat split; auto. rewrite Hm.
  apply in_map_iff. now exists (name, aliases).
Qed.

(** X3. Every fact of a page names the document and the page it was read
    from; its context is a line of the page text, trimmed of its
    surrounding blanks and not empty; its metric is one of the names of
    FINANCIAL_PATTERNS; and its currency is the one resolved for its
    context, one of INR, USD, EUR, GBP and Unknown. *)
Theorem page_facts_traceable :
  forall (source : str) (page_number : nat) (text : option str),
    Forall (traceable source page_number text)
      (extract_page source page_number text).
Proof.
  intros source page_number text. apply Forall_forall. intros f Hf.
  unfold extract_page in Hf. fold (page_text text) in Hf.
  apply in_flat_map in Hf as [line [Hline Hf]].
  pose proof (page_lines_origin _ _ Hline) as Horigin.
  apply page_lines_spec in Hline as [Hne [Hstrip Hinfix]].
  apply extract_line_fields in Hf as [Hs [Hp [Hc [Hm Hcur]]]].
  unfold traceable. rewrite Hc.
  repeat split; auto. rewrite Hcur. apply detect_currency_closed.
Qed.

Lemma extract_line_no_digit (source : str) (page_number : nat) (line : str) :
  existsb isdigit line = false -> extract_line source page_number line = [].
Proof.
  intros Hnone.
  destruct (extract_line source page_number line) as [| f l] eqn:E;
    [reflexivity |].
  assert (Hf : In f (extract_line source page_number line))
    by (rewrite E; now left).
  apply extract_line_spec in Hf as [_ [token [Htok _]]].
  apply amount_tokens_spec in Htok as [Hi Hd].
  rewrite (existsb_infix _ _ _ Hi Hd) in Hnone. discriminate.
Qed.

Lemma flat_map_nil {A B : Type} (g : A -> list B) (l : list A) :
  (forall x, In x l -> g x = []) -> flat_map g l = [].
Proof.
  induction l as [| x l' IH]; intros H; simpl; [reflexivity |].
  rewrite (H x (or_introl eq_refl)), IH; [reflexivity |].
  intros y Hy. apply H. now right.
Qed.

(** X4. A page whose text holds no digit yields no fact, and neither does
    a page for which the reader returned no text. *)
Theorem page_without_digits :
  forall (source : str) (page_number : nat) (text : option str),
    existsb isdigit (page_text text) = false ->
    extract_page source page_number text = [].
Proof.
  intros source page_number text Hnone. unfold extract_page.
  fold (page_text text). apply flat_map_nil. intros line Hline.
  apply page_lines_spec in Hline as [_ [_ Hinfix]].
  apply extract_line_no_digit.
  destruct (existsb isdigit line) eqn:E; [| reflexivity].
  rewrite (existsb_infix _ _ _ Hinfix E) in Hnone. discriminate.
Qed.

Lemma page_without_digits_witness :
  extract_page (txt "report.pdf") 3 None = [] /\
  extract_page (txt "report.pdf") 3
    (Some (txt "Revenue grew" ++ [10] ++ txt "  Net income fell  ")) = [].
Proof.
  split.
  - apply (page_without_digits (txt "report.pdf") 3 None). reflexivity.
  - apply (page_without_digits (txt "report.pdf") 3
             (Some (txt "Revenue grew" ++ [10] ++ txt "  Net income fell  "))).
    reflexivity.
Defined.

(** ** The pages of a document *)

Lemma StronglySorted_app {A : Type} (R : A -> A -> Prop) (l1 l2 : list A) :
  StronglySorted R l1 -> StronglySorted R l2 ->
  (forall a b, In a l1 -> In b l2 -> R a b) ->
  StronglySorted R (l1 ++ l2).
Proof.
  induction 1 as [| x l1' Hs IH Hx]; intros H2 Hc; simpl; [exact H2 |].
  constructor.
  - apply IH; [exact H2 |]. intros a b Ha Hb. apply Hc; [now right | exact Hb].
  - apply Forall_app. split; [exact Hx |].
    apply Forall_forall. intros b Hb. apply Hc; [now left | exact Hb].
Qed.

Lemma extract_page_fields (source : str) (page_number : nat) (text : option str)
    (f : FinancialMetric) :
  In f (extract_page source page_number text) ->
  source_file f = source /\ page f = page_number.
Proof.
  unfold extract_page. rewrite in_flat_map. intros [line [_ Hf]].
  apply extract_line_fields in Hf. tauto.
Qed.

Lemma same_page_sorted (n : nat) (l : list FinancialMetric) :
  (forall f, In f l -> page f = n) -> StronglySorted page_order l.
Proof.
  induction l as [| x l' IH]; intros H; constructor.
  - apply IH. intros f Hf. apply H. now right.
  - apply Forall_forall. intros y Hy. unfold page_order.
    rewrite (H x (or_introl eq_refl)), (H y (or_intror Hy)). lia.
Qed.

Lemma extract_pages_from (source : str) (pages : list (option str)) :
  forall k : nat,
    let facts :=
      flat_map (fun ip : nat * option str =>
                  extract_page source (fst ip) (snd ip))
        (enumerate_from k pages) in
    Forall (fun f => source_file f = source /\
                     (k <= page f < k + List.length pages)%nat) facts /\
    StronglySorted page_order facts.
Proof.
  induction pages as [| p ps IH]; intros k; simpl.
  - split; constructor.
  - destruct (IH (S k)) as [Hall Hsorted]. split.
    + apply Forall_app. split; apply Forall_forall; intros f Hf.
      * apply extract_page_fields in Hf as [Hs Hp]. split; [exact Hs | lia].
      * rewrite Forall_forall in Hall. destruct (Hall f Hf) as [Hs Hp].
        split; [exact Hs | lia].
    + apply StronglySorted_app; [| exact Hsorted |].
      * apply (same_page_sorted k). intros f Hf.
        now apply extract_page_fields in Hf.
      * intros a b Ha Hb. apply extract_page_fields in Ha as [_ Ha].
        rewrite Forall_forall in Hall. destruct (Hall b Hb) as [_ Hb'].
        unfold page_order. lia.
Qed.

(** X5. The facts of a document carry its name and a page number between
    1 and the number of its pages, and they come in the order of the
    pages. *)
Theorem document_facts_by_page :
  forall (source : str) (pages : list (option str)),
    Forall (of_document source (List.length pages))
      (extract_financial_metrics source pages) /\
    StronglySorted page_order (extract_financial_metrics source pages).
Proof.
  intros source pages. unfold extract_financial_metrics.
  destruct (extract_pages_from source pages 1) as [Hall Hsorted].
  split; [| exact Hsorted].
  eapply Forall_impl; [| exact Hall].
  intros f [Hs Hp]. split; [exact Hs | lia].
Qed.

(** ** Amount texts *)

Lemma replace_single (c : char) (s : str) :
  replace [c] [] s = filter (fun x => negb (c =? x)) s.
Proof.
  unfold replace. induction s as [| x s' IH]; simpl; [reflexivity |].
  rewrite andb_true_r. destruct (c =? x); simpl; [exact IH | now rewrite IH].
Qed.

Lemma filter_drop (c : char) (a b : str) :
  filter (fun x => negb (c =? x)) (a ++ c :: b)
  = filter (fun x => negb (c =? x)) (a ++ b).
Proof.
  rewrite !filter_app. simpl. now rewrite N.eqb_refl.
Qed.

Lemma filter_filter_comm (f g : char -> bool) (s : str) :
  filter f (filter g s) = filter g (filter f s).
Proof.
  induction s as [| x s' IH]; simpl; [reflexivity |].
  destruct (f x) eqn:Ef, (g x) eqn:Eg; simpl; rewrite ?Ef, ?Eg, IH; reflexivity.
Qed.

(** X6. Commas and dollar signs are ignored wherever they stand in an
    amount text: removing one changes neither the value nor whether the
    text parses. *)
Theorem separators_are_ignored :
  forall a b : str,
    normalize_amount (a ++ txt "," ++ b) = normalize_amount (a ++ b) /\
    normalize_amount (a ++ txt "$" ++ b) = normalize_amount (a ++ b).
Proof.
  intros a b. unfold normalize_amount.
  change (txt ",") with [44]. change (txt "$") with [36].
  rewrite !replace_single. split.
  - simpl app. now rewrite filter_drop.
  - simpl app.
    rewrite (filter_filter_comm _ _ (a ++ 36 :: b)), filter_drop.
    now rewrite (filter_filter_comm _ _ (a ++ b)).
Qed.

Lemma replace_absent (old new s : str) :
  match old with
  | [] => False
  | o :: _ => ~ In o s
  end ->
  replace old new s = s.
Proof.
  destruct old as [| o old']; [intros [] |]. unfold replace.
  induction s as [| x s' IH]; intros H; simpl; [reflexivity |].
  destruct (N.eqb_spec o x) as [-> | Hne]; [exfalso; apply H; now left |].
  simpl. rewrite IH; [reflexivity |]. intros Hin. apply H. now right.
Qed.

Lemma dropwhile_clean (f : char -> bool) (s : str) :
  (forall c, In c s -> f c = false) -> dropwhile f s = s.
Proof.
  destruct s as [| x s']; [reflexivity |]. intros H. simpl.
  now rewrite (H x (or_introl eq_refl)).
Qed.

Lemma strip_with_clean (f : char -> bool) (s : str) :
  (forall c, In c s -> f c = false) -> strip_with f s = s.
Proof.
  intros H. unfold strip_with. rewrite (dropwhile_clean f s H).
  rewrite dropwhile_clean; [apply rev_involutive |].
  intros c Hc. apply H. now apply in_rev.
Qed.

(** The characters of a numeral are neither blanks, nor parentheses, nor
    any character that [normalize_amount] removes. *)
Lemma numeral_char_facts (c : char) :
  numeral_char c = true ->
  isspace c = false /\ existsb (N.eqb c) (txt "()") = false /\
  c <> 44 /\ c <> 36 /\ c <> 8218 /\ c <> 172 /\ c <> 40 /\ c <> 41.
Proof.
  intros H.
  assert (Hok : plain_char c = true).
  { unfold numeral_char in H. rewrite !orb_true_iff, !N.eqb_eq in H.
    destruct H as [[[H | ->] | ->] | ->]; try reflexivity.
    apply isdigit_run in H as [z [Hin [Hz _]]].
    assert (Hrun : forallb plain_char (map (N.add z) [0; 1; 2; 3; 4; 5; 6; 7; 8; 9])
                   = true).
    { assert (Hall : forallb (fun z => forallb plain_char
                        (map (N.add z) [0; 1; 2; 3; 4; 5; 6; 7; 8; 9]))
                       DIGIT_ZEROS = true) by (vm_compute; reflexivity).
      rewrite forallb_forall in Hall. now apply Hall. }
    rewrite forallb_forall in Hrun. apply Hrun.
    replace c with (z + (c - z)) by lia. apply in_map.
    assert (Hk : c - z = 0 \/ c - z = 1 \/ c - z = 2 \/ c - z = 3 \/ c - z = 4 \/
                 c - z = 5 \/ c - z = 6 \/ c - z = 7 \/ c - z = 8 \/ c - z = 9)
      by lia.
    simpl. intuition. }
  unfold plain_char in Hok.
  rewrite !andb_true_iff, !negb_true_iff, !N.eqb_neq in Hok.
  destruct Hok as [[[[[[Hs H40] H41] H44] H36] H8218] H172].
  split; [exact Hs |]. split; [| auto 10].
  simpl. apply N.eqb_neq in H40, H41. now rewrite H40, H41.
Qed.

Lemma numeral_chars (t : str) (c : char) :
  forallb numeral_char t = true -> In c t -> numeral_char c = true.
Proof. intros Hn H. rewrite forallb_forall in Hn. auto. Qed.

Lemma wrapped_chars (t : str) (c : char) :
  forallb numeral_char t = true ->
  In c (40 :: t ++ [41]) -> c = 40 \/ c = 41 \/ numeral_char c = true.
Proof.
  intros Hn. simpl. rewrite in_app_iff. simpl.
  intros [<- | [H | [<- | []]]]; eauto using numeral_chars.
Qed.

Lemma wrapped_not_removed (t : str) (o : char) :
  forallb numeral_char t = true ->
  o = 44 \/ o = 36 \/ o = 8218 \/ o = 172 -> ~ In o (40 :: t ++ [41]).
Proof.
  intros Hn Ho Hin. apply (wrapped_chars t o Hn) in Hin as [-> | [-> | Hc]];
    try lia.
  apply numeral_char_facts in Hc. lia.
Qed.

Lemma numeral_not_removed (t : str) (o : char) :
  forallb numeral_char t = true ->
  o = 44 \/ o = 36 \/ o = 8218 \/ o = 172 -> ~ In o t.
Proof.
  intros Hn Ho Hin. apply (numeral_chars t o Hn), numeral_char_facts in Hin. lia.
Qed.

Lemma cleaned (s : str) :
  (forall o, o = 44 \/ o = 36 \/ o = 8218 \/ o = 172 -> ~ In o s) ->
  (forall c, In c s -> isspace c = false) ->
  strip
    (replace RUPEE_LITERAL []
       (replace POUND_LITERAL []
          (replace EURO_LITERAL []
             (replace (txt "$") [] (replace (txt ",") [] s))))) = s.
Proof.
  intros Hrem Hsp.
  rewrite (replace_absent (txt ",") [] s) by (apply Hrem; auto).
  rewrite (replace_absent (txt "$") [] s) by (apply Hrem; auto).
  rewrite (replace_absent EURO_LITERAL [] s) by (apply Hrem; auto).
  rewrite (replace_absent POUND_LITERAL [] s) by (apply Hrem; auto).
  rewrite (replace_absent RUPEE_LITERAL [] s) by (apply Hrem; auto).
  now apply strip_with_clean.
Qed.

Lemma plain_numeral (t : str) :
  t <> [] -> forallb numeral_char t = true -> normalize_amount t = float t.
Proof.
  intros Hne Hn. unfold normalize_amount.
  rewrite (cleaned t (fun o => numeral_not_removed t o Hn))
    by (intros c Hc; now apply (numeral_chars t c Hn), numeral_char_facts in Hc).
  assert (Hp : forall c, In c t -> existsb (N.eqb c) (txt "()") = false)
    by (intros c Hc; now apply (numeral_chars t c Hn), numeral_char_facts in Hc).
  unfold strip_chars. rewrite (strip_with_clean _ t Hp).
  assert (Hs : startswith (txt "(") t = false).
  { destruct t as [| x t']; [congruence |].
    assert (Hx : numeral_char x = true)
      by (apply (numeral_chars (x :: t') x Hn); now left).
    apply numeral_char_facts in Hx.
    change (startswith (txt "(") (x :: t')) with ((40 =? x) && true).
    destruct (N.eqb_spec 40 x); [lia | reflexivity]. }
  rewrite Hs. simpl. now destruct (float t).
Qed.

Lemma wrapped_numeral (t : str) :
  t <> [] -> forallb numeral_char t = true ->
  normalize_amount (40 :: t ++ [41]) = option_map Qopp (float t).
Proof.
  intros Hne Hn. unfold normalize_amount.
  rewrite (cleaned _ (fun o => wrapped_not_removed t o Hn)).
  2:{ intros c Hc. apply (wrapped_chars t c Hn) in Hc as [-> | [-> | Hc]];
        [reflexivity | reflexivity | now apply numeral_char_facts in Hc]. }
  assert (Hp : forall c, In c t -> existsb (N.eqb c) (txt "()") = false)
    by (intros c Hc; now apply (numeral_chars t c Hn), numeral_char_facts in Hc).
  assert (Hstart : startswith (txt "(") (40 :: t ++ [41]) = true) by reflexivity.
  assert (Hend : endswith (txt ")") (40 :: t ++ [41]) = true).
  { unfold endswith. simpl rev. rewrite rev_app_distr. reflexivity. }
  assert (Hstrip : strip_chars (txt "()") (40 :: t ++ [41]) = t).
  { unfold strip_chars, strip_with.
    change (dropwhile (fun c => existsb (N.eqb c) (txt "()")) (40 :: t ++ [41]))
      with (dropwhile (fun c => existsb (N.eqb c) (txt "()")) (t ++ [41])).
    assert (Hd : dropwhile (fun c => existsb (N.eqb c) (txt "()")) (t ++ [41])
                 = t ++ [41]).
    { destruct t as [| x t']; [congruence |]. simpl.
      assert (Hin : In x (x :: t')) by now left.
      apply Hp in Hin. simpl in Hin. now rewrite Hin. }
    rewrite Hd, rev_app_distr.
    change (dropwhile (fun c => existsb (N.eqb c) (txt "()")) (rev [41] ++ rev t))
      with (dropwhile (fun c => existsb (N.eqb c) (txt "()")) (rev t)).
    rewrite dropwhile_clean; [apply rev_involutive |].
    intros c Hc. apply Hp. now apply in_rev. }
  rewrite Hstart, Hend, Hstrip. simpl. now destruct (float t).
Qed.

(** X7. For a text of digits, decimal points and signs, the amount is
    what [float] makes of it, and the same text in parentheses gives the
    negated amount, or fails when the text does. *)
Theorem parentheses_negate :
  forall t : str,
    t <> [] -> forallb numeral_char t = true ->
    normalize_amount t = float t /\
    normalize_amount (txt "(" ++ t ++ txt ")") = option_map Qopp (float t).
Proof.
  intros t Hne Hnum. split;
    [now apply plain_numeral | now apply wrapped_numeral].
Qed.

Lemma parentheses_negate_witness :
  normalize_amount (txt "1200.50") = Some (2401 # 2)%Q /\
  normalize_amount (txt "(1200.50)") = Some (- 2401 # 2)%Q.
Proof.
  destruct (parentheses_negate (txt "1200.50")) as [H1 H2];
    [discriminate | reflexivity |].
  split; [exact H1 | exact H2].
Defined.

(** ** Labels *)

Lemma categorize_with_labels (rules : list CategoryRule) (description : str) :
  In (categorize_with rules description)
    (map (fun r => (category r, necessity r)) rules
     ++ [("Other"%string, "Non-necessity"%string)]).
Proof.
  induction rules as [| q rules' IH]; simpl; [now left |].
  destruct (rule_matches q description); [now left | now right].
Qed.

(** X8. The labels of a description are one of the eleven pairs of
    LABELS: a category of the rule table with its own necessity, or Other
    with Non-necessity. *)
Theorem categorize_labels_closed :
  forall description : str, In (categorize description) LABELS.
Proof.
  intros description. exact (categorize_with_labels CATEGORY_RULES description).
Qed.

Lemma between_enum (lo hi x : char) :
  between lo hi x = true ->
  In x (map (fun k => lo + N.of_nat k) (seq 0 (S (N.to_nat (hi - lo))))).
Proof.
  unfold between. rewrite andb_true_iff, !N.leb_le. intros [H1 H2].
  apply in_map_iff. exists (N.to_nat (x - lo)). split; [lia |].
  apply in_seq. lia.
Qed.

(** The letters A to Z and a to z in the tables: each has another case, and
    both cases have the small letter as their lower-case form. *)
Lemma ascii_letter_facts (x : char) :
  between 65 90 x = true ->
  lower_char x = x + 32 /\ lower_char (x + 32) = x + 32 /\
  in_ranges CASED_LITERALS x = true /\
  in_ranges CASED_LITERALS (x + 32) = true.
Proof.
  intros H. apply between_enum in H.
  assert (Hall : forallb (fun x => (lower_char x =? x + 32)
                                   && (lower_char (x + 32) =? x + 32)
                                   && in_ranges CASED_LITERALS x
                                   && in_ranges CASED_LITERALS (x + 32))
                   (map (fun k => 65 + N.of_nat k)
                      (seq 0 (S (N.to_nat (90 - 65))))) = true)
    by (vm_compute; reflexivity).
  rewrite forallb_forall in Hall. apply Hall in H.
  rewrite !andb_true_iff, !N.eqb_eq in H. tauto.
Qed.

(** With [re.IGNORECASE] a literal matches a letter A to Z exactly when it
    matches the small letter. *)
Lemma lit_matches_ascii_lower (c x : char) :
  lit_matches true c (ascii_lower x) = lit_matches true c x.
Proof.
  unfold ascii_lower. destruct (between 65 90 x) eqn:E; [| reflexivity].
  destruct (ascii_letter_facts x E) as [H1 [H2 [H3 H4]]].
  unfold lit_matches. cbn [andb].
  destruct (in_ranges CASED_LITERALS c) eqn:Ec.
  - now rewrite H1, H2.
  - destruct (N.eqb_spec (x + 32) c) as [<- | Hn1]; [congruence |].
    destruct (N.eqb_spec x c) as [<- | Hn2]; [congruence | reflexivity].
Qed.

Lemma Forall2_flat_map {A B C D : Type} (R : A -> B -> Prop)
    (S : C -> D -> Prop) (g1 : A -> list C) (g2 : B -> list D)
    (l1 : list A) (l2 : list B) :
  Forall2 R l1 l2 ->
  (forall a b, R a b -> Forall2 S (g1 a) (g2 b)) ->
  Forall2 S (flat_map g1 l1) (flat_map g2 l2).
Proof.
  intros H Hg. induction H as [| a b l1' l2' Hab Hl IH]; simpl; [constructor |].
  apply Forall2_app; auto.
Qed.

(** A pattern of literals, searched ignoring case, ends its matches at the
    same places in a text and in the text with its ASCII letters in lower
    case. *)
Lemma run_lower (r : regex) :
  literal_only r = true ->
  forall (p1 p2 : option char) (s : str),
    Forall2 lower_related (run true r p1 (map ascii_lower s))
      (run true r p2 s).
Proof.
  induction r as [| c | f | | r1 IH1 r2 IH2 | r1 IH1 r2 IH2 | r1 IH1 | f | f];
    simpl; intros Hl p1 p2 s; try discriminate.
  - constructor; [reflexivity | constructor].
  - destruct s as [| x s']; simpl; [constructor |].
    rewrite lit_matches_ascii_lower.
    destruct (lit_matches true c x);
      [constructor; [reflexivity | constructor] | constructor].
  - apply andb_true_iff in Hl as [H1 H2].
    apply (Forall2_flat_map lower_related lower_related); [now apply IH1 |].
    intros a b Hab. unfold lower_related in Hab. rewrite Hab. now apply IH2.
  - apply andb_true_iff in Hl as [H1 H2].
    apply Forall2_app; [now apply IH1 | now apply IH2].
  - apply Forall2_app; [now apply IH1 |].
    constructor; [reflexivity | constructor].
Qed.

Lemma search_lower (r : regex) :
  literal_only r = true ->
  forall s : str, search true r (map ascii_lower s) = search true r s.
Proof.
  intros Hl s. unfold search. generalize (@None char) at 1.
  generalize (@None char).
  induction s as [| c s' IH]; intros p2 p1.
  - simpl. pose proof (run_lower r Hl p1 p2 []) as H. simpl in H.
    destruct H; reflexivity.
  - cbn [map search_from].
    pose proof (run_lower r Hl p1 p2 (c :: s')) as H. cbn [map] in H.
    destruct H; [apply IH | reflexivity].
Qed.

Lemma categorize_with_lower (rules : list CategoryRule) (description : str) :
  forallb (fun r => forallb literal_only (patterns r)) rules = true ->
  categorize_with rules (map ascii_lower description)
  = categorize_with rules description.
Proof.
  induction rules as [| q rules' IH]; simpl; [reflexivity |].
  rewrite andb_true_iff. intros [Hq Hrules].
  assert (Hm : rule_matches q (map ascii_lower description)
               = rule_matches q description).
  { unfold rule_matches. rewrite forallb_forall in Hq.
    induction (patterns q) as [| p ps IHp]; simpl; [reflexivity |].
    rewrite search_lower by (apply Hq; now left).
    rewrite IHp; [reflexivity |]. intros x Hx. apply Hq. now right. }
  rewrite Hm, IH by exact Hrules. reflexivity.
Qed.

(** X9. Descriptions that differ only in the case of their letters A to Z
    get the same labels. *)
Theorem categorize_ignores_case :
  forall d1 d2 : str,
    map ascii_lower d1 = map ascii_lower d2 -> categorize d1 = categorize d2.
Proof.
  intros d1 d2 E. unfold categorize.
  rewrite <- (categorize_with_lower CATEGORY_RULES d1 eq_refl).
  rewrite <- (categorize_with_lower CATEGORY_RULES d2 eq_refl).
  now rewrite E.
Qed.

Lemma categorize_ignores_case_witness :
  categorize (txt "WALMART Supercenter") = categorize (txt "walmart SUPERCENTER").
Proof.
  apply (categorize_ignores_case (txt "WALMART Supercenter")
           (txt "walmart SUPERCENTER")).
  reflexivity.
Defined.

(** ** Totals of the summaries *)

Lemma qsum_perm (l1 l2 : list Q) :
  Permutation l1 l2 -> (qsum l1 == qsum l2)%Q.
Proof.
  induction 1 as [| x l1' l2' _ IH | x y l | l1' l2' l3' _ IH1 _ IH2]; simpl.
  - reflexivity.
  - now rewrite IH.
  - rewrite !Qplus_assoc. now rewrite (Qplus_comm y x).
  - now rewrite IH1.
Qed.

Lemma add_spend_sum {K : Type} (eqb : K -> K -> bool) (key : K) (v : Q)
    (acc : list (K * Q)) :
  (qsum (map snd (add_spend eqb key v acc)) == qsum (map snd acc) + v)%Q.
Proof.
  induction acc as [| [k0 t0] acc' IH]; simpl.
  - now rewrite Qplus_0_r, Qplus_0_l.
  - destruct (eqb k0 key); simpl.
    + rewrite <- !Qplus_assoc. now rewrite (Qplus_comm v).
    + rewrite IH. now rewrite Qplus_assoc.
Qed.

Lemma fold_add_spend_sum {K : Type} (eqb : K -> K -> bool)
    (rows : list (K * Q)) :
  forall acc : list (K * Q),
    (qsum (map snd
             (fold_left (fun a r => add_spend eqb (fst r) (snd r) a) rows acc))
     == qsum (map snd acc) + qsum (map snd rows))%Q.
Proof.
  induction rows as [| [key v] rows' IH]; intros acc; simpl.
  - now rewrite Qplus_0_r.
  - rewrite IH, add_spend_sum. simpl. now rewrite Qplus_assoc.
Qed.

(** Grouping keeps the overall sum. *)
Lemma group_sum_sum {K : Type} (eqb : K -> K -> bool) (rows : list (K * Q)) :
  (qsum (map snd (group_sum eqb rows)) == qsum (map snd rows))%Q.
Proof.
  unfold group_sum. rewrite fold_add_spend_sum. simpl. apply Qplus_0_l.
Qed.

Lemma summary_sum {K : Type} (eqb : K -> K -> bool) (key_of : Labelled -> K)
    (rows : list Labelled) :
  (qsum (map snd
           (sort_by by_spend_desc
              (group_sum eqb
                 (map (fun r => (key_of r, Spend r)) (filter is_expense rows)))))
   == qsum (map Spend (filter is_expense rows)))%Q.
Proof.
  rewrite (qsum_perm _ _ (Permutation_map snd (sort_by_perm _ by_spend_desc _))).
  rewrite group_sum_sum, map_map. reflexivity.
Qed.

Lemma filter_perm {A : Type} (f : A -> bool) (l1 l2 : list A) :
  Permutation l1 l2 -> Permutation (filter f l1) (filter f l2).
Proof.
  induction 1 as [| x l1' l2' _ IH | x y l | l1' l2' l3' _ IH1 _ IH2]; simpl.
  - constructor.
  - destruct (f x); [now constructor | exact IH].
  - destruct (f x), (f y); try apply perm_swap; reflexivity.
  - now transitivity (filter f l2').
Qed.

Lemma expenses_spend (df : list Transaction) :
  (qsum (map Spend (filter is_expense (sorted_of df))) == total_spend df)%Q.
Proof.
  unfold sorted_of, analyze_statement, total_spend. cbn [fst].
  set (sorted := sort_by (fun a b => Z.leb (Date a) (Date b)) df).
  assert (E : map Spend (filter is_expense (map label sorted))
              = map (fun t => Qabs (Amount t)) (filter is_outflow sorted)).
  { induction sorted as [| t l IH]; [reflexivity |]. cbn [map filter].
    change (is_expense (label t)) with (is_outflow t).
    destruct (is_outflow t); cbn [map]; now rewrite IH. }
  rewrite E. apply qsum_perm. apply Permutation_map, filter_perm.
  apply sort_by_perm.
Qed.

(** X10. The totals of the summary by category and the totals of the
    summary by necessity both add up to the spend of the table: the sum of
    the absolute amounts of its rows with a negative amount. *)
Theorem summaries_add_up :
  forall df : list Transaction,
    (qsum (map snd (by_category_of df)) == total_spend df)%Q /\
    (qsum (map snd (by_need_of df)) == total_spend df)%Q.
Proof.
  intros df. split; rewrite <- expenses_spend.
  - exact (summary_sum pair_eqb (fun r => (Category r, Necessity r))
             (sorted_of df)).
  - exact (summary_sum String.eqb Necessity (sorted_of df)).
Qed.

Lemma by_category_summarises (df : list Transaction) :
  summarises pair_eqb (fun r => (Category r, Necessity r)) (sorted_of df)
    (by_category_of df).
Proof.
  exact (summary_summarises _ pair_eqb pair_eqb_eq
           (fun r => (Category r, Necessity r)) (sorted_of df)).
Qed.

Lemma by_need_summarises (df : list Transaction) :
  summarises String.eqb Necessity (sorted_of df) (by_need_of df).
Proof.
  exact (summary_summarises _ String.eqb String.eqb_eq Necessity (sorted_of df)).
Qed.

Lemma sorted_of_In (df : list Transaction) (r : Labelled) :
  In r (sorted_of df) <-> exists t, In t df /\ r = label t.
Proof.
  unfold sorted_of, analyze_statement. cbn [fst]. rewrite in_map_iff. split.
  - intros [t [<- Ht]]. exists t. split; [| reflexivity].
    revert Ht. apply Permutation_in, sort_by_perm.
  - intros [t [Ht ->]]. exists t. split; [reflexivity |].
    revert Ht. apply Permutation_in, Permutation_sym, sort_by_perm.
Qed.

Lemma Spend_nonneg (r : Labelled) : (0 <= Spend r)%Q.
Proof. apply Qabs_nonneg. Qed.

Lemma Spend_pos (r : Labelled) : (Amount (txn r) < 0)%Q -> (0 < Spend r)%Q.
Proof.
  intros H. unfold Spend. rewrite Qabs_neg by now apply Qlt_le_weak.
  now apply (Qopp_lt_compat (Amount (txn r)) 0).
Qed.

Lemma qsum_nonneg (l : list Q) :
  (forall x, In x l -> (0 <= x)%Q) -> (0 <= qsum l)%Q.
Proof.
  induction l as [| x l' IH]; intros H; simpl; [apply Qle_refl |].
  apply (Qplus_le_compat 0 x 0 (qsum l')).
  - apply H. now left.
  - apply IH. intros y Hy. apply H. now right.
Qed.

Lemma qsum_pos (l : list Q) (y : Q) :
  (forall x, In x l -> (0 <= x)%Q) -> In y l -> (0 < y)%Q -> (0 < qsum l)%Q.
Proof.
  induction l as [| x l' IH]; intros H Hin Hy; [destruct Hin |]. simpl.
  destruct Hin as [-> | Hin].
  - apply (Qplus_lt_le_compat 0 y 0 (qsum l')); [exact Hy |].
    apply qsum_nonneg. intros z Hz. apply H. now right.
  - rewrite Qplus_comm.
    apply (Qplus_lt_le_compat 0 (qsum l') 0 x).
    + apply IH; auto. intros z Hz. apply H. now right.
    + apply H. now left.
Qed.

Section SummaryLines.

Variable K : Type.
Variable eqb : K -> K -> bool.
Hypothesis eqb_eq : forall a b, eqb a b = true <-> a = b.
Variable key_of : Labelled -> K.
Variable rows : list Labelled.
Variable summary : list (K * Q).
Hypothesis summary_ok : summarises eqb key_of rows summary.

Lemma summary_line_positive (k : K) (t : Q) :
  In (k, t) summary -> (0 < t)%Q.
Proof.
  intros Hin. destruct summary_ok as [_ [Hk Ht]].
  rewrite (Ht k t Hin).
  assert (Hkey : In k (map fst summary))
    by (apply in_map_iff; now exists (k, t)).
  apply Hk in Hkey as [r [Hr [Hlt E]]].
  unfold spend_of. apply qsum_pos with (y := Spend r).
  - intros x Hx. apply in_map_iff in Hx as [r' [<- _]]. apply Spend_nonneg.
  - apply in_map. apply filter_In. split.
    + apply filter_In. split; [exact Hr | now apply is_expense_lt].
    + now apply eqb_eq.
  - now apply Spend_pos.
Qed.

Lemma summary_empty_iff :
  summary = [] <-> forall r, In r rows -> ~ (Amount (txn r) < 0)%Q.
Proof.
  destruct summary_ok as [_ [Hk _]]. split.
  - intros E r Hr Hlt.
    assert (Hin : In (key_of r) (map fst summary)) by (apply Hk; now exists r).
    rewrite E in Hin. destruct Hin.
  - intros H. destruct summary as [| [k t] l]; [reflexivity |].
    assert (Hin : In k (map fst ((k, t) :: l))) by now left.
    apply Hk in Hin as [r [Hr [Hlt _]]]. exfalso. exact (H r Hr Hlt).
Qed.

Lemma summary_length (keys : list K) :
  (forall r, In r rows -> In (key_of r) keys) ->
  (List.length summary <= List.length keys)%nat.
Proof.
  intros H. destruct summary_ok as [Hn [Hk _]].
  rewrite <- (length_map fst summary).
  apply NoDup_incl_length; [exact Hn |].
  intros k Hin. apply Hk in Hin as [r [Hr [_ <-]]]. now apply H.
Qed.

End SummaryLines.

(** X11. Every line of the two summaries carries a strictly positive
    total. *)
Theorem summary_totals_positive :
  forall df : list Transaction,
    Forall (fun line => (0 < snd line)%Q) (by_category_of df) /\
    Forall (fun line => (0 < snd line)%Q) (by_need_of df).
Proof.
  intros df. split; apply Forall_forall; intros [k t] Hin; simpl.
  - exact (summary_line_positive _ pair_eqb pair_eqb_eq _ _ _
             (by_category_summarises df) k t Hin).
  - exact (summary_line_positive _ String.eqb String.eqb_eq _ _ _
             (by_need_summarises df) k t Hin).
Qed.

Lemma no_outflow_rows (df : list Transaction) :
  (forall r, In r (sorted_of df) -> ~ (Amount (txn r) < 0)%Q) <->
  filter is_outflow df = [].
Proof.
  split.
  - intros H. destruct (filter is_outflow df) as [| t l] eqn:E; [reflexivity |].
    assert (Ht : In t (filter is_outflow df)) by (rewrite E; now left).
    apply filter_In in Ht as [Ht Ho]. exfalso.
    apply (H (label t)); [apply sorted_of_In; now exists t |].
    apply (is_expense_lt (label t)). exact Ho.
  - intros E r Hr Hlt. apply sorted_of_In in Hr as [t [Ht ->]].
    assert (Hin : In t (filter is_outflow df)).
    { apply filter_In. split; [exact Ht |].
      now apply (is_expense_lt (label t)). }
    rewrite E in Hin. destruct Hin.
Qed.

(** X12. The two summaries are empty exactly when no row of the table has
    a negative amount; in particular they are empty for an empty table. *)
Theorem summaries_empty_iff :
  forall df : list Transaction,
    (by_category_of df = [] <-> filter is_outflow df = []) /\
    (by_need_of df = [] <-> filter is_outflow df = []).
Proof.
  intros df. rewrite <- no_outflow_rows. split.
  - exact (summary_empty_iff _ pair_eqb _ _ _ (by_category_summarises df)).
  - exact (summary_empty_iff _ String.eqb _ _ _ (by_need_summarises df)).
Qed.

Lemma necessity_closed (description : str) :
  In (snd (categorize description)) ["Necessity"; "Non-necessity"]%string.
Proof.
  pose proof (categorize_with_labels CATEGORY_RULES description) as H.
  fold (categorize description) in H. simpl in H.
  repeat (destruct H as [<- | H]; [simpl; tauto |]). destruct H.
Qed.

(** X13. The summary by category has at most eleven lines and the summary
    by necessity at most two, and no key occurs on two lines. *)
Theorem summary_sizes :
  forall df : list Transaction,
    NoDup (map fst (by_category_of df)) /\
    (List.length (by_category_of df) <= 11)%nat /\
    NoDup (map fst (by_need_of df)) /\
    (List.length (by_need_of df) <= 2)%nat.
Proof.
  intros df. split; [exact (proj1 (by_category_summarises df)) |].
  split; [| split; [exact (proj1 (by_need_summarises df)) |]].
  - apply (summary_length _ pair_eqb _ _ _ (by_category_summarises df) LABELS).
    intros r Hr. apply sorted_of_In in Hr as [t [_ ->]]. cbn [label Category Necessity].
    rewrite <- surjective_pairing. apply categorize_with_labels.
  - apply (summary_length _ String.eqb _ _ _ (by_need_summarises df)
             ["Necessity"; "Non-necessity"]%string).
    intros r Hr. apply sorted_of_In in Hr as [t [_ ->]]. cbn [label Necessity].
    apply necessity_closed.
Qed.

(** ** The rows of the normalized table *)

Lemma combine3_nth {A B C : Type} (l1 : list A) :
  forall (l2 : list B) (l3 : list C) (a : A) (b : B) (c : C),
    In (a, (b, c)) (combine l1 (combine l2 l3)) ->
    exists i, nth_error l1 i = Some a /\ nth_error l2 i = Some b /\
              nth_error l3 i = Some c.
Proof.
  induction l1 as [| x l1' IH]; intros l2 l3 a b c; simpl; [intros [] |].
  destruct l2 as [| y l2']; simpl; [intros [] |].
  destruct l3 as [| z l3']; simpl; [intros [] |].
  intros [E | H].
  - injection E as -> -> ->. now exists 0%nat.
  - destruct (IH _ _ _ _ _ H) as [i Hi]. now exists (S i).
Qed.

Lemma nth_error_map_some {A B : Type} (f : A -> B) (l : list A) (i : nat)
    (y : B) :
  nth_error (map f l) i = Some y ->
  exists x, nth_error l i = Some x /\ f x = y.
Proof.
  rewrite nth_error_map. destruct (nth_error l i) as [x |]; simpl;
    [| discriminate].
  intros E. injection E as <-. now exists x.
Qed.

Lemma dropna_In (dates : list (option Z)) (descriptions : list str)
    (amounts : list (option Q)) (row : Transaction) :
  In row (dropna dates descriptions amounts) ->
  exists i, nth_error dates i = Some (Some (Date row)) /\
            nth_error descriptions i = Some (Description row) /\
            nth_error amounts i = Some (Some (Amount row)).
Proof.
  unfold dropna. rewrite in_flat_map. intros [[d [s a]] [Hin Hrow]].
  destruct d as [d |]; [| destruct Hrow].
  destruct a as [a |]; [| destruct Hrow].
  destruct Hrow as [<- | []]. simpl. now apply combine3_nth.
Qed.

Lemma dropna_length (dates : list (option Z)) (descriptions : list str)
    (amounts : list (option Q)) :
  (List.length (dropna dates descriptions amounts) <= List.length dates)%nat.
Proof.
  unfold dropna. transitivity (List.length (combine dates (combine descriptions amounts))).
  - induction (combine dates (combine descriptions amounts)) as [| [d [s a]] l IH];
      simpl; [lia |].
    rewrite length_app. destruct d, a; simpl; lia.
  - rewrite length_combine. lia.
Qed.

(** When [normalize_columns] returns, its rows are the complete rows of
    the date, description and amount columns it found. *)
Lemma normalize_columns_ok {cell : Type} (to_datetime : cell -> option Z)
    (to_numeric : cell -> option Q) (astype_str : cell -> str)
    (df : DataFrame cell) (rows : list Transaction) :
  normalize_columns to_datetime to_numeric astype_str df = Ok rows ->
  rows = dropna
           (map to_datetime
              (df_get df (the (_find_column (df_columns df) (aliases_for "date")))))
           (map (fun c => strip (astype_str c))
              (df_get df
                 (the (_find_column (df_columns df) (aliases_for "description")))))
           (map to_numeric
              (df_get df (the (_find_column (df_columns df) (aliases_for "amount"))))).
Proof.
  unfold normalize_columns, amount_source_of.
  destruct (truthy (_find_column (df_columns df) (aliases_for "date")));
    simpl; [| discriminate].
  destruct (truthy (_find_column (df_columns df) (aliases_for "description")));
    simpl; [| discriminate].
  destruct (truthy (_find_column (df_columns df) (aliases_for "amount"))) eqn:Ea;
    simpl.
  - intros E. now injection E as <-.
  - destruct (truthy (_find_column (df_columns df) (aliases_for "credit")));
      simpl; [| discriminate].
    destruct (truthy (_find_column (df_columns df) (aliases_for "debit"))) eqn:Eb;
      simpl; [| discriminate].
    apply (truthy_resolves (df_columns df) "debit" eq_refl) in Eb.
    apply debit_resolves_amount in Eb.
    apply (truthy_resolves (df_columns df) "amount" eq_refl) in Eb.
    congruence.
Qed.

(** X14. Rows are dropped, never invented or defaulted: when
    [normalize_columns] returns, it has at most one row per line of the
    table, and every row holds the date, the trimmed description and the
    amount read from the cells of one line of the date, description and
    amount columns. *)
Theorem normalized_rows_come_from_cells :
  forall (cell : Type) (to_datetime : cell -> option Z)
         (to_numeric : cell -> option Q) (astype_str : cell -> str)
         (df : DataFrame cell) (rows : list Transaction),
    normalize_columns to_datetime to_numeric astype_str df = Ok rows ->
    let dates :=
      df_get df (the (_find_column (df_columns df) (aliases_for "date"))) in
    let descriptions :=
      df_get df (the (_find_column (df_columns df) (aliases_for "description"))) in
    let amounts :=
      df_get df (the (_find_column (df_columns df) (aliases_for "amount"))) in
    (List.length rows <= List.length dates)%nat /\
    Forall (row_of_cells to_datetime to_numeric astype_str
              dates descriptions amounts) rows.
Proof.
  intros cell to_datetime to_numeric astype_str df rows H dates descriptions
    amounts.
  apply normalize_columns_ok in H. fold dates descriptions amounts in H.
  subst rows. split.
  - rewrite dropna_length. now rewrite length_map.
  - apply Forall_forall. intros row Hrow.
    apply dropna_In in Hrow as [i [Hd [Hs Ha]]].
    apply nth_error_map_some in Hd as [c1 [Hc1 Hd]].
    apply nth_error_map_some in Hs as [c2 [Hc2 Hs]].
    apply nth_error_map_some in Ha as [c3 [Hc3 Ha]].
    exists i, c1, c2, c3. auto 10.
Qed.

Lemma normalized_rows_come_from_cells_witness :
  (List.length [ {| Date := 1; Description := txt "ATM withdrawal";
                    Amount := 100 # 1 |} ] <= 2)%nat.
Proof.
  exact (proj1 (normalized_rows_come_from_cells sample_cell
                  as_date as_number as_text DEBIT_CREDIT_TABLE _ eq_refl)).
Defined.
